(** * A shallow embedding of the survey assistant (app.py)

    The development follows the source file top to bottom: the string
    helpers ([_safe_str], [_norm], [_slugify]), the data classes
    ([Option], [Question], [Survey]), the spreadsheet parser
    ([load_survey_from_excel]), the registry ([load_all_surveys]), the
    result formatter ([_answers_to_text]) and the branching engine
    ([api_answer]).

    Conventions.
    - A Python [str] is a Rocq [string] holding the UTF-8 bytes of its
      code points.  Whitespace is what [str.strip] and the regular
      expression class [\s] take for it: U+0009-U+000D, U+001C-U+0020,
      U+0085, U+00A0, U+1680, U+2000-U+200A, U+2028, U+2029, U+202F,
      U+205F and U+3000, each recognised by its encoding of one, two or
      three bytes.  [str.lower] follows the Unicode character database;
      it belongs to the Python runtime.
    - A Python [dict] is an association list in insertion order; assigning
      to an existing key keeps the key's position.
    - [str.lower], [float], [str] of a float and the text of lists and
      dicts belong to the Python runtime; they are taken through the
      interfaces [PyRuntime] and [PyContainers]. *)

From Stdlib Require Import String Ascii List ZArith Lia Bool DecimalString.
From Stdlib Require Import Sorted.
Import ListNotations.
Local Open Scope string_scope.
Local Open Scope Z_scope.

Set Implicit Arguments.

(* ------------------------------------------------------------------ *)
(** ** Strings *)

Module Str.

(** [c.isspace()] for a code point of one byte: U+0009-U+000D,
    U+001C-U+001F and U+0020. *)
Definition is_space1 (a : ascii) : bool :=
  let n := nat_of_ascii a in
  ((9 <=? n) && (n <=? 13) || (28 <=? n) && (n <=? 32))%nat.

(** [c.isspace()] for a code point of two bytes: U+0085 (C2 85) and
    U+00A0 (C2 A0). *)
Definition is_space2 (a b : ascii) : bool :=
  let m := nat_of_ascii a in
  let n := nat_of_ascii b in
  ((m =? 194) && ((n =? 133) || (n =? 160)))%nat.

(** [c.isspace()] for a code point of three bytes: U+1680 (E1 9A 80),
    U+2000-U+200A (E2 80 80 to E2 80 8A), U+2028 and U+2029 (E2 80 A8,
    E2 80 A9), U+202F (E2 80 AF), U+205F (E2 81 9F) and U+3000
    (E3 80 80). *)
Definition is_space3 (a b c : ascii) : bool :=
  let l := nat_of_ascii a in
  let m := nat_of_ascii b in
  let n := nat_of_ascii c in
  ((l =? 225) && (m =? 154) && (n =? 128)
   || (l =? 226) && (m =? 128)
      && ((128 <=? n) && (n <=? 138) || (n =? 168) || (n =? 169) || (n =? 175))
   || (l =? 226) && (m =? 129) && (n =? 159)
   || (l =? 227) && (m =? 128) && (n =? 128))%nat.

(** The number of bytes of the whitespace character [s] starts with; 0
    when [s] starts with none. *)
Definition space_width (s : string) : nat :=
  match s with
  | EmptyString => 0
  | String a s1 =>
      if is_space1 a then 1
      else match s1 with
           | EmptyString => 0
           | String b s2 =>
               if is_space2 a b then 2
               else match s2 with
                    | EmptyString => 0
                    | String c _ => if is_space3 a b c then 3 else 0
                    end
           end
  end%nat.

Definition is_upper (c : ascii) : bool :=
  let n := nat_of_ascii c in ((65 <=? n) && (n <=? 90))%nat.

Definition is_lower (c : ascii) : bool :=
  let n := nat_of_ascii c in ((97 <=? n) && (n <=? 122))%nat.

Definition is_digit (c : ascii) : bool :=
  let n := nat_of_ascii c in ((48 <=? n) && (n <=? 57))%nat.

Definition nonempty (s : string) : bool :=
  match s with EmptyString => false | String _ _ => true end.

(** [s.lstrip()] *)
Fixpoint lstrip (s : string) : string :=
  match s with
  | EmptyString => EmptyString
  | String a s1 =>
      if is_space1 a then lstrip s1
      else match s1 with
           | EmptyString => s
           | String b s2 =>
               if is_space2 a b then lstrip s2
               else match s2 with
                    | EmptyString => s
                    | String c s3 => if is_space3 a b c then lstrip s3 else s
                    end
           end
  end.

(** [s.isspace() or not s]: nothing but whitespace characters. *)
Definition is_blank (s : string) : bool := negb (nonempty (lstrip s)).

(** [s.rstrip()]: the text is cut where what remains is whitespace. *)
Fixpoint rstrip (s : string) : string :=
  match s with
  | EmptyString => EmptyString
  | String c s' => if is_blank s then EmptyString else String c (rstrip s')
  end.

(** [s.strip()] *)
Definition strip (s : string) : string := rstrip (lstrip s).

Definition startswith (s p : string) : bool := String.prefix p s.

Fixpoint rev (s : string) : string :=
  match s with
  | EmptyString => EmptyString
  | String c s' => rev s' ++ String c EmptyString
  end.

Definition endswith (s p : string) : bool := String.prefix (rev p) (rev s).

(** [sep.join(l)] *)
Definition join (sep : string) (l : list string) : string := String.concat sep l.

(** [s.replace(old, new)] for a non-empty [old]: occurrences are taken
    left to right and do not overlap.  [skip] counts the characters of a
    matched occurrence that are still to be dropped. *)
Fixpoint replace_from (old new : string) (skip : nat) (s : string) : string :=
  match s with
  | EmptyString => EmptyString
  | String c s' =>
      match skip with
      | S k => replace_from old new k s'
      | O =>
          if String.prefix old s
          then new ++ replace_from old new (String.length old - 1) s'
          else String c (replace_from old new 0 s')
      end
  end.

Definition replace (old new s : string) : string := replace_from old new 0 s.

(** [s[n:]] *)
Fixpoint drop (n : nat) (s : string) : string :=
  match n, s with
  | O, _ => s
  | S n', String _ s' => drop n' s'
  | S _, EmptyString => EmptyString
  end.

(** The text before and the text after the first occurrence of a
    non-empty [old] in [s]. *)
Fixpoint split_first (old s : string) : option (string * string) :=
  match s with
  | EmptyString => None
  | String c s' =>
      if String.prefix old s
      then Some (EmptyString, drop (String.length old) s)
      else match split_first old s' with
           | Some (a, b) => Some (String c a, b)
           | None => None
           end
  end.

(** [str(n)] for an [int]. *)
Definition of_Z (z : Z) : string := NilZero.string_of_int (Z.to_int z).

(** [x in l] for a list of strings. *)
Definition mem (x : string) (l : list string) : bool :=
  existsb (String.eqb x) l.

(** [all(f(c) for c in s)] *)
Fixpoint all (f : ascii -> bool) (s : string) : bool :=
  match s with
  | EmptyString => true
  | String c s' => f c && all f s'
  end.

End Str.

(* ------------------------------------------------------------------ *)
(** ** Small helpers *)

(** [s or None] *)
Definition or_none (s : string) : option string :=
  if Str.nonempty s then Some s else None.

(** [s or d] *)
Definition or_default (s d : string) : string :=
  if Str.nonempty s then s else d.

(** A text that does not start with whitespace. *)
Definition starts_clean (s : string) : Prop := Str.space_width s = 0%nat.

(* ------------------------------------------------------------------ *)
(** ** Dictionaries *)

Definition dict (V : Type) : Type := list (string * V).

Fixpoint dict_get (V : Type) (k : string) (d : dict V) : option V :=
  match d with
  | [] => None
  | (k', v) :: d' => if String.eqb k' k then Some v else dict_get k d'
  end.

(** [d[k] = v]: an existing key keeps its place, a new key goes last. *)
Fixpoint dict_set (V : Type) (k : string) (v : V) (d : dict V) : dict V :=
  match d with
  | [] => [(k, v)]
  | (k', v') :: d' =>
      if String.eqb k' k then (k', v) :: d' else (k', v') :: dict_set k v d'
  end.

(** [k in d] *)
Definition dict_mem (V : Type) (k : string) (d : dict V) : bool :=
  match dict_get k d with Some _ => true | None => false end.

Definition dict_keys (V : Type) (d : dict V) : list string := map fst d.

(** [len(d)] *)
Definition dict_len (V : Type) (d : dict V) : Z := Z.of_nat (length d).

(* ------------------------------------------------------------------ *)
(** ** Data classes *)

Record Option : Type := mkOption {
  idx : Z;
  text : string;
  next_qid : option string
}.

Record Question : Type := mkQuestion {
  qid : string;
  qtype : string;
  q_title : string;
  q_text : string;
  long_text : string;
  hints : string;
  options : list Option;
  next_id : option string
}.

Record Survey : Type := mkSurvey {
  key : string;
  file_name : string;
  title : string;
  description : string;
  start_qid : string;
  final_title : string;
  final_text : string;
  questions : dict Question
}.

(* ------------------------------------------------------------------ *)
(** ** Exceptions *)

(** What [load_survey_from_excel] reports in its [ValueError]. *)
Inductive defect : Type :=
| MissingColumns (missing : list string)
| NoSurveyRow
| InvalidType (q : string) (t : string)
| NoAnswers (q : string)
| NoQuestions.

Inductive exn : Type :=
| ValueError (file : string) (d : defect)
| ReadError (file : string).

Inductive result (A : Type) : Type :=
| Ok (a : A)
| Raise (e : exn).

Arguments Ok {A} a.
Arguments Raise {A} e.

(* ------------------------------------------------------------------ *)
(** ** Paths and [_slugify] *)

Definition slash : ascii := "/"%char.
Definition dot : ascii := "."%char.

(** The part of [s] after the last [sep], if [sep] occurs. *)
Fixpoint after_last (sep : ascii) (s : string) : option string :=
  match s with
  | EmptyString => None
  | String c s' =>
      match after_last sep s' with
      | Some t => Some t
      | None => if Ascii.eqb c sep then Some s' else None
      end
  end.

(** The part of [s] before the last [sep], if [sep] occurs. *)
Fixpoint before_last (sep : ascii) (s : string) : option string :=
  match s with
  | EmptyString => None
  | String c s' =>
      match before_last sep s' with
      | Some t => Some (String c t)
      | None => if Ascii.eqb c sep then Some EmptyString else None
      end
  end.

(** [os.path.basename] *)
Definition basename (p : string) : string :=
  match after_last slash p with Some t => t | None => p end.

Fixpoint all_dots (s : string) : bool :=
  match s with
  | EmptyString => true
  | String c s' => Ascii.eqb c dot && all_dots s'
  end.

(** [os.path.splitext(name)[0]] for a name without directory part: the
    extension starts at the last dot, unless only dots come before it. *)
Definition splitext_root (name : string) : string :=
  match before_last dot name with
  | Some pre => if all_dots pre then name else pre
  | None => name
  end.

(** What a whitespace character adds to the output of
    [re.sub(r"\s+", "_", s)]: the first one of a run adds the "_". *)
Definition underscore (in_run : bool) (rest : string) : string :=
  if in_run then rest else String "_"%char rest.

(** [re.sub(r"\s+", "_", s)]; [in_run] tells that the previous character
    was whitespace. *)
Fixpoint collapse_spaces (in_run : bool) (s : string) : string :=
  match s with
  | EmptyString => EmptyString
  | String a s1 =>
      if Str.is_space1 a then underscore in_run (collapse_spaces true s1)
      else match s1 with
           | EmptyString => String a (collapse_spaces false s1)
           | String b s2 =>
               if Str.is_space2 a b
               then underscore in_run (collapse_spaces true s2)
               else match s2 with
                    | EmptyString => String a (collapse_spaces false s1)
                    | String c s3 =>
                        if Str.is_space3 a b c
                        then underscore in_run (collapse_spaces true s3)
                        else String a (collapse_spaces false s1)
                    end
           end
  end.

Definition slug_char (c : ascii) : bool :=
  Str.is_upper c || Str.is_lower c || Str.is_digit c
  || Ascii.eqb c "_"%char || Ascii.eqb c "-"%char.

(** [re.sub(r"[^A-Za-z0-9_-]+", "", s)] *)
Fixpoint keep_slug_chars (s : string) : string :=
  match s with
  | EmptyString => EmptyString
  | String c s' =>
      if slug_char c then String c (keep_slug_chars s') else keep_slug_chars s'
  end.

Definition _slugify (name : string) : string :=
  let base := splitext_root (basename name) in
  let base := collapse_spaces false base in
  let base := keep_slug_chars base in
  or_default base "survey".

(* ------------------------------------------------------------------ *)
(** ** The Python runtime: case folding and floats *)

(** The operations of [str] and [float] the program relies on and that
    the Python runtime defines. *)
Class PyRuntime := {
  (** [s.lower()] *)
  str_lower : string -> string;
  pyfloat : Type;
  (** [float(s)]; [None] when it raises [ValueError] *)
  float_of_str : string -> option pyfloat;
  (** [str(x)] *)
  str_of_float : pyfloat -> string;
  (** [pandas.isna(x)] *)
  float_isnan : pyfloat -> bool;
  (** [bool(x)] *)
  float_truthy : pyfloat -> bool
}.

Section Model.

Context {PF : PyRuntime}.

(** A decoded JSON value, which is also what a spreadsheet cell holds. *)
#[warnings="-register-all"]
Inductive pyval : Type :=
| PNone
| PBool (b : bool)
| PInt (z : Z)
| PFloat (f : pyfloat)
| PStr (s : string)
| PList (l : list pyval)
| PDict (d : list (string * pyval)).

(** What the runtime and pandas do with lists and dicts. *)
Class PyContainers := {
  (** [str(v)] for a list or a dict *)
  str_container : pyval -> string;
  (** the truth of [pandas.isna(v)] in [if pd.isna(v)], [false] when the
      test raises (the source catches the exception) *)
  isna_container : pyval -> bool
}.

Context {PC : PyContainers}.

(** [bool(v)] *)
Definition truthy (v : pyval) : bool :=
  match v with
  | PNone => false
  | PBool b => b
  | PInt z => negb (z =? 0)
  | PFloat f => float_truthy f
  | PStr s => Str.nonempty s
  | PList l => match l with [] => false | _ => true end
  | PDict d => match d with [] => false | _ => true end
  end.

(** [str(v)] *)
Definition py_str (v : pyval) : string :=
  match v with
  | PNone => "None"
  | PBool true => "True"
  | PBool false => "False"
  | PInt z => Str.of_Z z
  | PFloat f => str_of_float f
  | PStr s => s
  | PList _ | PDict _ => str_container v
  end.

(** [pandas.isna(v)] as used in a condition. *)
Definition pd_isna (v : pyval) : bool :=
  match v with
  | PNone => true
  | PFloat f => float_isnan f
  | PBool _ | PInt _ | PStr _ => false
  | PList _ | PDict _ => isna_container v
  end.

(** [_safe_str] *)
Definition _safe_str (v : pyval) : string :=
  match v with
  | PNone => EmptyString
  | _ => if pd_isna v then EmptyString else Str.strip (py_str v)
  end.

(** [_norm] *)
Definition _norm (s : string) : string := str_lower (Str.strip s).

(** [isinstance(v, int)]: a [bool] is an [int] in Python. *)
Definition as_int (v : pyval) : option Z :=
  match v with
  | PInt z => Some z
  | PBool b => Some (if b then 1 else 0)
  | _ => None
  end.


(* ------------------------------------------------------------------ *)
(** ** The spreadsheet *)

Definition SHEET_NAME : string := "data".

Definition COL_ROWTYPE : string := "RowType".
Definition COL_SURVEY_TITLE : string := "SurveyTitle".
Definition COL_SURVEY_DESC : string := "SurveyDescription".
Definition COL_START_QID : string := "StartQuestionId".
Definition COL_FINAL_TITLE : string := "FinalTitle".
Definition COL_FINAL_TEXT : string := "FinalText".
Definition COL_QID : string := "Id".
Definition COL_Q_TITLE : string := "QuestionTitle".
Definition COL_Q_TEXT : string := "QuestionText".
Definition COL_Q_LONG : string := "LongText".
Definition COL_HINTS : string := "Hints".
Definition COL_TYPE : string := "Type".
Definition COL_NEXTID : string := "NextId".

Definition newline : string := String (ascii_of_nat 10) EmptyString.

(** The sheet [pd.read_excel] returns: the header as read and the cells of
    each row by position.  The header names are taken to be distinct after
    stripping. *)
Record DataFrame : Type := mkDataFrame {
  columns : list string;
  rows : list (list pyval)
}.

(** A row as the loops see it: cells by column name. *)
Definition Series : Type := dict pyval.

(** [df.columns = [c.strip() for c in df.columns]] *)
Definition stripped_columns (df : DataFrame) : list string :=
  map Str.strip (columns df).

Definition iterrows (df : DataFrame) : list Series :=
  map (B := Series) (fun cells => combine (stripped_columns df) cells)
    (rows df).

(** [r.get(col)] *)
Definition get (r : dict pyval) (col : string) : pyval :=
  match dict_get col r with Some v => v | None => PNone end.

(** [df[COL_ROWTYPE].astype(str).str.lower().str.strip()] on one row. *)
Definition row_type (r : Series) : string :=
  Str.strip (str_lower (py_str (get r COL_ROWTYPE))).

Definition is_row (kind : string) (r : Series) : bool :=
  String.eqb (row_type r) kind.

(** [required], in the order [sorted] gives. *)
Definition required : list string :=
  [COL_FINAL_TEXT; COL_FINAL_TITLE; COL_HINTS; COL_QID; COL_Q_LONG;
   COL_NEXTID; COL_Q_TEXT; COL_Q_TITLE; COL_ROWTYPE; COL_START_QID;
   COL_SURVEY_DESC; COL_SURVEY_TITLE; COL_TYPE].

Definition is_nil (A : Type) (l : list A) : bool :=
  match l with [] => true | _ :: _ => false end.

(** [range(1, 11)] *)
Definition answer_slots : list Z := [1; 2; 3; 4; 5; 6; 7; 8; 9; 10].

Definition option_of_slot (r : Series) (i : Z) : list Option :=
  let a := _safe_str (get r ("Answer" ++ Str.of_Z i)) in
  let n := _safe_str (get r ("NextIfAnswer" ++ Str.of_Z i)) in
  if Str.nonempty a then [mkOption i a (or_none n)] else [].

(** The loop over [Answer1..Answer10]. *)
Definition gather_options (r : Series) : list Option :=
  flat_map (option_of_slot r) answer_slots.

(** What the body of the question loop does with one row. *)
Inductive row_outcome : Type :=
| Skipped
| Built (q : Question)
| Invalid (d : defect).

Definition question_of_row (r : Series) : row_outcome :=
  let qid := _safe_str (get r COL_QID) in
  if negb (Str.nonempty qid) then Skipped else
  let qtype := _norm (_safe_str (get r COL_TYPE)) in
  if negb (Str.mem qtype ["single"; "multi"; "text"; "number"])
  then Invalid (InvalidType qid qtype) else
  let next_id := or_none (_safe_str (get r COL_NEXTID)) in
  let opts := gather_options r in
  if Str.mem qtype ["single"; "multi"] && is_nil opts
  then Invalid (NoAnswers qid) else
  Built (mkQuestion qid qtype
           (_safe_str (get r COL_Q_TITLE))
           (_safe_str (get r COL_Q_TEXT))
           (_safe_str (get r COL_Q_LONG))
           (_safe_str (get r COL_HINTS))
           opts next_id).

(** [for _, r in qrows.iterrows(): ...] *)
Fixpoint question_loop (file : string) (qrows : list Series)
    (questions : dict Question) : result (dict Question) :=
  match qrows with
  | [] => Ok questions
  | r :: rest =>
      match question_of_row r with
      | Skipped => question_loop file rest questions
      | Invalid d => Raise (ValueError file d)
      | Built q => question_loop file rest (dict_set (qid q) q questions)
      end
  end.

(** [load_survey_from_excel]; [sheet] is what [pd.read_excel] gives for
    the path, [None] when it raises. *)
Definition load_survey_from_excel (filepath : string)
    (sheet : option DataFrame) : result Survey :=
  let file := basename filepath in
  match sheet with
  | None => Raise (ReadError file)
  | Some df =>
      let cols := stripped_columns df in
      let missing_core := filter (fun c => negb (Str.mem c cols)) required in
      if negb (is_nil missing_core)
      then Raise (ValueError file (MissingColumns missing_core)) else
      let key := _slugify filepath in
      match filter (is_row "survey") (iterrows df) with
      | [] => Raise (ValueError file NoSurveyRow)
      | m :: _ =>
          let title := or_default (_safe_str (get m COL_SURVEY_TITLE)) key in
          let description := _safe_str (get m COL_SURVEY_DESC) in
          let start_qid := _safe_str (get m COL_START_QID) in
          let final_title :=
            or_default (_safe_str (get m COL_FINAL_TITLE)) "Готово" in
          let final_text :=
            or_default (_safe_str (get m COL_FINAL_TEXT))
              ("Спасибо! Ваши ответы:" ++ newline ++ "{answers}") in
          let qrows := filter (is_row "question") (iterrows df) in
          match question_loop file qrows [] with
          | Raise e => Raise e
          | Ok questions =>
              match questions with
              | [] => Raise (ValueError file NoQuestions)
              | (first_qid, _) :: _ =>
                  let start_qid :=
                    if negb (Str.nonempty start_qid)
                       || negb (dict_mem start_qid questions)
                    then first_qid else start_qid in
                  Ok (mkSurvey key file title description start_qid
                        final_title final_text questions)
              end
          end
      end
  end.

(** The id the question loop reads from a row. *)
Definition row_qid (r : Series) : string := _safe_str (get r COL_QID).

(** The options of a question come in strictly ascending index order. *)
Definition ascending (opts : list Option) : Prop :=
  StronglySorted (fun a b => idx a < idx b) opts.

(* ------------------------------------------------------------------ *)
(** ** The registry *)

(** [os.path.join(data_dir, name)] *)
Definition path_join (data_dir name : string) : string :=
  if Str.startswith name "/" then name
  else if negb (Str.nonempty data_dir) || Str.endswith data_dir "/"
       then data_dir ++ name
       else data_dir ++ "/" ++ name.

(** [Survey(key=k, file_name=s.file_name, ...)] *)
Definition with_key (s : Survey) (k : string) : Survey :=
  mkSurvey k (file_name s) (title s) (description s) (start_qid s)
    (final_title s) (final_text s) (questions s).

(** [f"{key}_{len(surveys)+1}"] *)
Definition suffixed_key (surveys : dict Survey) (k : string) : string :=
  k ++ "_" ++ Str.of_Z (dict_len surveys + 1).

(** The body of the [try] once the survey is loaded. *)
Definition register (surveys : dict Survey) (s : Survey) : dict Survey :=
  let s := if dict_mem (key s) surveys
           then with_key s (suffixed_key surveys (key s)) else s in
  dict_set (key s) s surveys.

(** The loop over [os.listdir(data_dir)]: every entry comes with the sheet
    [pd.read_excel] would read from it. *)
Fixpoint discover (data_dir : string)
    (entries : list (string * option DataFrame))
    (surveys : dict Survey) : result (dict Survey) :=
  match entries with
  | [] => Ok surveys
  | (name, sheet) :: rest =>
      if negb (Str.endswith (str_lower name) ".xlsx")
      then discover data_dir rest surveys
      else if Str.startswith name "~$"
      then discover data_dir rest surveys
      else
        match load_survey_from_excel (path_join data_dir name) sheet with
        | Raise e => Raise e
        | Ok s => discover data_dir rest (register surveys s)
        end
  end.

(** [load_all_surveys]; [listing] is [None] when [data_dir] is not a
    directory. *)
Definition load_all_surveys (data_dir : string)
    (listing : option (list (string * option DataFrame)))
    : result (dict Survey) :=
  match listing with
  | None => Ok []
  | Some entries => discover data_dir entries []
  end.

(** [SURVEYS.get(key)], [None] standing for [abort(404)]. *)
Definition get_survey_or_404 (SURVEYS : dict Survey) (k : string)
    : option Survey :=
  dict_get k SURVEYS.

(* ------------------------------------------------------------------ *)
(** ** The result formatter *)

(** [x or y] *)
Definition py_or (x y : pyval) : pyval := if truthy x then x else y.

(** One line of [_answers_to_text]; [None] when [a.get] raises because
    [a] is not a dict. *)
Definition answer_line (a : pyval) : option string :=
  match a with
  | PDict d =>
      let qtitle :=
        py_or (py_or (get d "question_title") (get d "qid")) (PStr "Вопрос") in
      let aval := py_or (get d "value_text") (PStr EmptyString) in
      Some (py_str qtitle ++ ": " ++ py_str aval)
  | _ => None
  end.

Fixpoint answer_lines (answers : list pyval) : option (list string) :=
  match answers with
  | [] => Some []
  | a :: rest =>
      match answer_line a, answer_lines rest with
      | Some l, Some ls => Some (l :: ls)
      | _, _ => None
      end
  end.

(** [_answers_to_text] *)
Definition _answers_to_text (answers : list pyval) : option string :=
  match answer_lines answers with
  | Some lines => Some (Str.join newline lines)
  | None => None
  end.

Definition placeholder : string := "{answers}".

(** [(s.final_text or "").replace("{answers}", _answers_to_text(answers))] *)
Definition render_final (template : string) (answers : list pyval)
    : option string :=
  match _answers_to_text answers with
  | Some answers_text => Some (Str.replace placeholder answers_text template)
  | None => None
  end.

(* ------------------------------------------------------------------ *)
(** ** The branching engine *)

(** What the endpoint sends back. *)
Inductive response : Type :=
| Error (error : string) (next : option string) (status : Z)
    (** [{"ok": False, "error": error [, "next_qid": next]}, status] *)
| Finished (final_title final_text : string) (answers : list pyval)
| Advanced (next_qid : string) (answers : list pyval)
| Unhandled.
    (** an exception leaves the view: the framework answers 500 *)

(** The outcome of the branch on the question type. *)
Inductive evaluation : Type :=
| Rejected (error : string) (status : Z)
| Accepted (value_text : string) (next_qid : option string).

Fixpoint insert_uniq (x : Z) (l : list Z) : list Z :=
  match l with
  | [] => [x]
  | y :: l' =>
      if x <? y then x :: l
      else if x =? y then l
      else y :: insert_uniq x l'
  end.

(** [sorted(set(l))] *)
Definition sorted_set (l : list Z) : list Z := fold_right insert_uniq [] l.

(** [x in l] for a list of ints. *)
Definition mem_Z (x : Z) (l : list Z) : bool := existsb (Z.eqb x) l.

(** The ints of [l] when [all(isinstance(x, int) for x in l)]. *)
Fixpoint all_ints (l : list pyval) : option (list Z) :=
  match l with
  | [] => Some []
  | v :: rest =>
      match as_int v, all_ints rest with
      | Some z, Some zs => Some (z :: zs)
      | _, _ => None
      end
  end.

(** [[o.text for o in q.options if o.idx in option_idxs]] *)
Definition chosen_texts (opts : list Option) (option_idxs : list Z)
    : list string :=
  map text (filter (fun o => mem_Z (idx o) option_idxs) opts).

(** The [if qtype == ...] chain of [api_answer]. *)
Definition evaluate (q : Question) (data : dict pyval) : evaluation :=
  if String.eqb (qtype q) "single" then
    match as_int (get data "option_idx") with
    | None => Rejected "bad_request" 400
    | Some option_idx =>
        match find (fun o => idx o =? option_idx) (options q) with
        | None => Rejected "invalid_option" 400
        | Some opt => Accepted (text opt) (next_qid opt)
        end
    end
  else if String.eqb (qtype q) "multi" then
    match get data "option_idxs" with
    | PList l =>
        match all_ints l with
        | None => Rejected "bad_request" 400
        | Some idxs =>
            let chosen := chosen_texts (options q) (sorted_set idxs) in
            if is_nil chosen then Rejected "no_selection" 400
            else Accepted (Str.join ", " chosen) (next_id q)
        end
    | _ => Rejected "bad_request" 400
    end
  else if String.eqb (qtype q) "text" then
    let v := _safe_str (get data "value") in
    if negb (Str.nonempty v) then Rejected "empty_value" 400
    else Accepted v (next_id q)
  else if String.eqb (qtype q) "number" then
    let v := get data "value" in
    match v with
    | PInt _ | PBool _ | PFloat _ => Accepted (py_str v) (next_id q)
    | _ =>
        match float_of_str (_safe_str v) with
        | None => Rejected "bad_number" 400
        | Some f => Accepted (str_of_float f) (next_id q)
        end
    end
  else Rejected "unsupported_type" 500.

Definition is_continuation (c : ascii) : bool :=
  let n := nat_of_ascii c in ((128 <=? n) && (n <=? 191))%nat.

(** The characters of a string, each with its UTF-8 continuation bytes;
    the first component holds continuation bytes that come before any
    character. *)
Fixpoint split_chars (s : string) : string * list string :=
  match s with
  | EmptyString => (EmptyString, [])
  | String c s' =>
      let (cont, rest) := split_chars s' in
      if is_continuation c then (String c cont, rest)
      else (EmptyString, String c cont :: rest)
  end.

(** [list(v)]; [None] when it raises [TypeError]. *)
Definition py_list (v : pyval) : option (list pyval) :=
  match v with
  | PList l => Some l
  | PDict d => Some (map (fun kv => PStr (fst kv)) d)
  | PStr s =>
      let (cont, rest) := split_chars s in
      Some (map PStr (if Str.nonempty cont then cont :: rest else rest))
  | PNone | PBool _ | PInt _ | PFloat _ => None
  end.

(** The record [api_answer] appends. *)
Definition answer_record (qid : string) (q : Question) (value_text : string)
    : pyval :=
  PDict [("qid", PStr qid);
         ("question_title", PStr (q_title q));
         ("question_text", PStr (q_text q));
         ("type", PStr (qtype q));
         ("value_text", PStr value_text)].

(** [next_qid] when it is truthy; [None] is the [if not next_qid] case of
    an [Optional[str]]. *)
Definition target (next_qid : option string) : option string :=
  match next_qid with
  | Some n => if Str.nonempty n then Some n else None
  | None => None
  end.

(** [api_answer] from [# append answer] to its end. *)
Definition conclude (s : Survey) (qid : string) (q : Question)
    (answers : pyval) (value_text : string) (next_qid : option string)
    : response :=
  match py_list answers with
  | None => Unhandled
  | Some prior =>
      let answers := (prior ++ [answer_record qid q value_text])%list in
      match target next_qid with
      | None =>
          match render_final (final_text s) answers with
          | Some final_text => Finished (final_title s) final_text answers
          | None => Unhandled
          end
      | Some n =>
          if negb (dict_mem n (questions s))
          then Error "next_question_missing" (Some n) 500
          else Advanced n answers
      end
  end.

(** [request.get_json(silent=True) or {}] *)
Definition payload (body : pyval) : pyval :=
  if truthy body then body else PDict [].

(** [api_answer] after [get_survey_or_404]; [body] is what
    [request.get_json(silent=True)] returns. *)
Definition api_answer (s : Survey) (body : pyval) : response :=
  match payload body with
  | PDict data =>
      let qid := _safe_str (get data "qid") in
      let answers := py_or (get data "answers") (PList []) in
      if negb (Str.nonempty qid) then Error "bad_request" None 400 else
      match dict_get qid (questions s) with
      | None => Error "question_not_found" None 404
      | Some q =>
          match evaluate q data with
          | Rejected error status => Error error None status
          | Accepted value_text next_qid =>
              conclude s qid q answers value_text next_qid
          end
      end
  | _ => Unhandled
  end.

(** The [answers] member of a response body, when it has one. *)
Definition response_answers (r : response) : option (list pyval) :=
  match r with
  | Finished _ _ answers | Advanced _ answers => Some answers
  | Error _ _ _ | Unhandled => None
  end.

(* ------------------------------------------------------------------ *)
(** ** The question endpoint *)

(** What [api_get_question] sends back. *)
Inductive question_response : Type :=
| QuestionNotFound
    (** [{"ok": False, "error": "question_not_found"}, 404] *)
| QuestionBody (survey_key qid type title text long_text hints : string)
    (options : list (Z * string)).
    (** [{"ok": True, "survey_key": ..., "options": [{"idx", "text"}]}] *)

(** [api_get_question] after [get_survey_or_404]; [id] is the path
    segment [<qid>] of the URL. *)
Definition api_get_question (s : Survey) (id : string) : question_response :=
  match dict_get id (questions s) with
  | None => QuestionNotFound
  | Some q =>
      QuestionBody (key s) (qid q) (qtype q) (q_title q) (q_text q)
        (long_text q) (hints q)
        (map (fun opt => (idx opt, text opt)) (options q))
  end.

(** The files [load_all_surveys] reads: the name ends in ".xlsx", in any
    case, and does not start with "~$". *)
Definition eligible (name : string) : bool :=
  Str.endswith (str_lower name) ".xlsx" && negb (Str.startswith name "~$").

(* ------------------------------------------------------------------ *)
(** ** Notions used to state the properties *)

(** Every question of the survey was built by the question loop from a
    row and is stored under its own id. *)
Definition from_rows (s : Survey) : Prop :=
  forall k q, dict_get k (questions s) = Some q ->
              exists r, question_of_row r = Built q /\ qid q = k.

(** The selection a [multi] answer stands for, in the words of the
    specification: the options of the question whose index was
    submitted, each once, in ascending index order. *)
Definition resolved_selection (opts : list Option) (idxs : list Z)
    (sel : list Option) : Prop :=
  ascending sel /\ forall o, In o sel <-> In o opts /\ In (idx o) idxs.

(** The title [_answers_to_text] prints for a record the engine built. *)
Definition label (qid : string) (q : Question) : string :=
  or_default (q_title q) (or_default qid "Вопрос").

(** The submissions the type branch of [api_answer] turns down, with the
    error code each one gets. *)
Inductive turned_down (q : Question) (data : dict pyval) : string -> Prop :=
| single_not_an_int :
    qtype q = "single" ->
    as_int (get data "option_idx") = None ->
    turned_down q data "bad_request"
| single_no_such_option (i : Z) :
    qtype q = "single" ->
    as_int (get data "option_idx") = Some i ->
    (forall o, In o (options q) -> idx o <> i) ->
    turned_down q data "invalid_option"
| multi_not_a_list :
    qtype q = "multi" ->
    (forall l, get data "option_idxs" <> PList l) ->
    turned_down q data "bad_request"
| multi_not_all_ints (l : list pyval) :
    qtype q = "multi" ->
    get data "option_idxs" = PList l ->
    all_ints l = None ->
    turned_down q data "bad_request"
| multi_nothing_resolves (l : list pyval) (idxs : list Z) :
    qtype q = "multi" ->
    get data "option_idxs" = PList l ->
    all_ints l = Some idxs ->
    (forall o, In o (options q) -> ~ In (idx o) idxs) ->
    turned_down q data "no_selection"
| text_empty :
    qtype q = "text" ->
    _safe_str (get data "value") = EmptyString ->
    turned_down q data "empty_value"
| number_unparsable :
    qtype q = "number" ->
    as_int (get data "value") = None ->
    (forall f, get data "value" <> PFloat f) ->
    float_of_str (_safe_str (get data "value")) = None ->
    turned_down q data "bad_number".

(** The submissions [api_answer] answers with a client error: no usable
    [qid], or an answer the type branch turns down. *)
Inductive rejected (s : Survey) (data : dict pyval) : string -> Prop :=
| no_qid :
    _safe_str (get data "qid") = EmptyString ->
    rejected s data "bad_request"
| bad_answer (q : Question) (code : string) :
    dict_get (_safe_str (get data "qid")) (questions s) = Some q ->
    _safe_str (get data "qid") <> EmptyString ->
    turned_down q data code ->
    rejected s data code.

(** A value [_answers_to_text] can read a line from. *)
Definition is_dict (v : pyval) : Prop := exists d, v = PDict d.

(** The record the engine appends for the answer [v] to the question [q]
    asked under the id [k], and the line it is printed as. *)
Definition record_of (r : string * Question * string) : pyval :=
  let '(k, q, v) := r in answer_record k q v.

Definition line_of (r : string * Question * string) : string :=
  let '(k, q, v) := r in label k q ++ ": " ++ v.

End Model.

Arguments PyContainers {PF}.

(* ------------------------------------------------------------------ *)
(** ** Concrete data for the examples *)

Module Example.

(** A fragment of the runtime, enough to run the examples: [str.lower]
    on texts whose cased letters are Basic Latin, Latin-1 or Cyrillic
    letters up to U+042F, and the floats with a whole value below 10^16,
    written with digits only, and NaN. *)
Definition lower_char (c : ascii) : ascii :=
  if Str.is_upper c then ascii_of_nat (nat_of_ascii c + 32) else c.

(** The lower case of a capital letter of two bytes: U+00C0-U+00DE but
    U+00D7 (C3 80 to C3 9E), U+0400-U+040F (D0 80 to D0 8F),
    U+0410-U+041F (D0 90 to D0 9F) and U+0420-U+042F (D0 A0 to D0 AF). *)
Definition lower_pair (a b : ascii) : option (ascii * ascii) :=
  let m := nat_of_ascii a in
  let n := nat_of_ascii b in
  (if (m =? 195) && (128 <=? n) && (n <=? 158) && negb (n =? 151)
   then Some (a, ascii_of_nat (n + 32))
   else if (m =? 208) && (128 <=? n) && (n <=? 143)
   then Some (ascii_of_nat 209, ascii_of_nat (n + 16))
   else if (m =? 208) && (144 <=? n) && (n <=? 159)
   then Some (a, ascii_of_nat (n + 32))
   else if (m =? 208) && (160 <=? n) && (n <=? 175)
   then Some (ascii_of_nat 209, ascii_of_nat (n - 32))
   else None)%nat.

Fixpoint lower (s : string) : string :=
  match s with
  | EmptyString => EmptyString
  | String a s1 =>
      match s1 with
      | EmptyString => String (lower_char a) EmptyString
      | String b s2 =>
          match lower_pair a b with
          | Some (a', b') => String a' (String b' (lower s2))
          | None => String (lower_char a) (lower s1)
          end
      end
  end.

Inductive xfloat : Type :=
| Whole (z : Z)
| NaN.

Fixpoint digits_value (acc : Z) (s : string) : option Z :=
  match s with
  | EmptyString => Some acc
  | String c s' =>
      if Str.is_digit c
      then digits_value (10 * acc + (Z.of_nat (nat_of_ascii c) - 48)) s'
      else None
  end.

Definition unsigned_of_str (s : string) : option xfloat :=
  if Str.nonempty s then option_map Whole (digits_value 0 s) else None.

Definition xfloat_of_str (s : string) : option xfloat :=
  match Str.strip s with
  | String "-"%char t =>
      option_map (fun f => match f with Whole z => Whole (- z) | NaN => NaN end)
        (unsigned_of_str t)
  | String "+"%char t => unsigned_of_str t
  | t => if String.eqb (lower t) "nan" then Some NaN else unsigned_of_str t
  end.

Definition str_of_xfloat (f : xfloat) : string :=
  match f with
  | Whole z => Str.of_Z z ++ ".0"
  | NaN => "nan"
  end.

#[export] Instance xfloat_runtime : PyRuntime := {|
  str_lower := lower;
  pyfloat := xfloat;
  float_of_str := xfloat_of_str;
  str_of_float := str_of_xfloat;
  float_isnan := fun f => match f with NaN => true | Whole _ => false end;
  float_truthy := fun f => match f with NaN => true | Whole z => negb (z =? 0) end
|}.

(** The examples send no list or dict through [str] or [pandas.isna]. *)
#[export] Instance xcontainers : PyContainers := {|
  str_container := fun v =>
    match v with PList _ => "[...]" | PDict _ => "{...}" | _ => EmptyString end;
  isna_container := fun _ => false
|}.

(** An empty cell, as pandas reads it. *)
Definition blank : pyval := PFloat NaN.

Definition header : list string :=
  ["RowType"; "SurveyTitle"; "SurveyDescription"; "StartQuestionId";
   "FinalTitle"; "FinalText"; "Id"; "QuestionTitle"; "QuestionText";
   "LongText"; "Hints"; "Type"; "NextId";
   "Answer1"; "NextIfAnswer1"; "Answer2"; "NextIfAnswer2";
   "Answer3"; "NextIfAnswer3"].

(** A metadata row. *)
Definition survey_row (title start final_text : pyval) : list pyval :=
  [PStr "survey"; title; blank; start; blank; final_text; blank; blank;
   blank; blank; blank; blank; blank; blank; blank; blank; blank; blank;
   blank].

(** A question row with up to three answers. *)
Definition question_row (id qtitle type next a1 n1 a2 n2 a3 n3 : pyval)
    : list pyval :=
  [PStr "question"; blank; blank; blank; blank; blank; id; qtitle; blank;
   blank; blank; type; next; a1; n1; a2; n2; a3; n3].

(** The survey of the scenarios: Q1 branches to Q2 on "Yes" and finishes
    on "No". *)
Definition yes_no : DataFrame :=
  mkDataFrame header
    [survey_row (PStr "Demo") (PStr "Q1") (PStr "Done: {answers}.");
     question_row (PStr "Q1") (PStr "Continue?") (PStr "single") blank
       (PStr "Yes") (PStr "Q2") (PStr "No") blank blank blank;
     question_row (PStr "Q2") (PStr "Colours") (PStr "Multi") blank
       (PStr "Red") blank (PStr "Green") blank (PStr "Blue") blank].

(** A question without title whose only answer branches to a question
    that does not exist. *)
Definition dangling : DataFrame :=
  mkDataFrame header
    [survey_row blank (PStr "Q7") (PStr "{answers}");
     question_row blank blank (PStr "bogus") blank blank blank blank blank
       blank blank;
     question_row (PStr "Q1") blank (PStr "single") blank
       (PStr "Yes") (PStr "Q9") (PStr "No") blank blank blank;
     question_row (PStr "N") (PStr "Age") (PStr "number") (PStr "Q9")
       blank blank blank blank blank blank;
     question_row (PStr "Q1") blank (PStr "single") blank
       (PStr "Go") (PStr "Q9") (PStr "Stop") blank blank blank].

(** What the parser makes of [yes_no] read from "data/yes no.xlsx". *)
Definition continue_q : Question :=
  mkQuestion "Q1" "single" "Continue?" EmptyString EmptyString EmptyString
    [mkOption 1 "Yes" (Some "Q2"); mkOption 2 "No" None] None.

Definition colours_q : Question :=
  mkQuestion "Q2" "multi" "Colours" EmptyString EmptyString EmptyString
    [mkOption 1 "Red" None; mkOption 2 "Green" None; mkOption 3 "Blue" None]
    None.

Definition yes_no_survey : Survey :=
  mkSurvey "yes_no" "yes no.xlsx" "Demo" EmptyString "Q1" "Готово"
    "Done: {answers}." [("Q1", continue_q); ("Q2", colours_q)].

(** What the parser makes of [dangling] read from "data/dangling.xlsx":
    the second Q1 row has replaced the first. *)
Definition untitled_q : Question :=
  mkQuestion "Q1" "single" EmptyString EmptyString EmptyString EmptyString
    [mkOption 1 "Go" (Some "Q9"); mkOption 2 "Stop" None] None.

Definition age_q : Question :=
  mkQuestion "N" "number" "Age" EmptyString EmptyString EmptyString []
    (Some "Q9").

Definition dangling_survey : Survey :=
  mkSurvey "dangling" "dangling.xlsx" "dangling" EmptyString "Q1" "Готово"
    "{answers}" [("Q1", untitled_q); ("N", age_q)].

(** A sheet whose only question row has no id. *)
Definition blank_only : DataFrame :=
  mkDataFrame header
    [survey_row (PStr "Empty") blank blank;
     question_row blank (PStr "?") (PStr "bogus") blank blank blank blank
       blank blank blank].

(** A directory with one file, and the registry built from it. *)
Definition one_file : option (list (string * option DataFrame)) :=
  Some [("yes no.xlsx", Some yes_no)].

Definition one_survey : dict Survey := [("yes_no", yes_no_survey)].

(** Two files whose names give the same key. *)
Definition two_files : option (list (string * option DataFrame)) :=
  Some [("a.xlsx", Some yes_no); ("a!.xlsx", Some yes_no)].

(** Request bodies. *)
Definition pick (k : string) (i : Z) : dict pyval :=
  [("qid", PStr k); ("option_idx", PInt i)].

Definition tick (k : string) (l : list pyval) : dict pyval :=
  [("qid", PStr k); ("option_idxs", PList l)].

Definition say (k : string) (v : pyval) : dict pyval :=
  [("qid", PStr k); ("value", v)].

(** More sheets and requests. *)

(** A row as the loops see it. *)
Definition series (cells : list pyval) : Series :=
  combine (map Str.strip header) cells.

(** A sheet without the column Type, among others. *)
Definition no_type : DataFrame := mkDataFrame ["RowType"; " Id "] [].

(** A sheet whose second question has a type the parser does not know. *)
Definition q1_row : list pyval :=
  question_row (PStr "Q1") (PStr "Name") (PStr "Text") blank blank blank blank
    blank blank blank.

Definition q2_row : list pyval :=
  question_row (PStr "Q2") (PStr "?") (PStr "choice") blank (PStr "A") blank
    blank blank blank blank.

Definition bad_type : DataFrame :=
  mkDataFrame header
    [survey_row (PStr "Bad") (PStr "Q1") blank; q1_row; q2_row; q1_row].

(** A row without any cell filled. *)
Definition blank_row : list pyval := repeat blank 19.

(** A [text] question. *)
Definition name_q : Question :=
  mkQuestion "T" "text" "Name" EmptyString EmptyString EmptyString [] None.

(** An answer to Q1 sent with a number where the prior answers belong. *)
Definition pick_with_number : dict pyval :=
  [("qid", PStr "Q1"); ("option_idx", PInt 1); ("answers", PInt 5)].

(** The answer "No" to Q1 sent with prior answers that are no records. *)
Definition pick_after_number : dict pyval :=
  [("qid", PStr "Q1"); ("option_idx", PInt 2); ("answers", PList [PInt 1])].

(** An answer to the [number] question sent with a number where the prior
    answers belong. *)
Definition say_with_number : dict pyval :=
  [("qid", PStr "N"); ("value", PInt 5); ("answers", PInt 5)].

(** U+00A0 (no-break space) and U+2003 (em space). *)
Definition nbsp : string :=
  String (ascii_of_nat 194) (String (ascii_of_nat 160) EmptyString).

Definition emsp : string :=
  String (ascii_of_nat 226)
    (String (ascii_of_nat 128) (String (ascii_of_nat 131) EmptyString)).

(** A sheet padded with no-break spaces: in the header Type, in the
    declared start, in the row type of Q2, in the types and in the ids,
    of which one is blank and two are the same. *)
Definition padded : DataFrame :=
  mkDataFrame
    (map (fun h => if String.eqb h "Type" then "Type" ++ nbsp else h) header)
    [survey_row (PStr (nbsp ++ "Demo")) (PStr ("Q2" ++ nbsp)) blank;
     question_row (PStr nbsp) (PStr "?") (PStr "bogus") blank blank blank
       blank blank blank blank;
     question_row (PStr "A") (PStr "First") (PStr ("single" ++ nbsp)) blank
       (PStr "Yes") blank (PStr nbsp) blank blank blank;
     PStr ("Question" ++ nbsp)
       :: tl (question_row (PStr "Q2") (PStr "Name") (PStr "TEXT") blank
                blank blank blank blank blank blank);
     question_row (PStr ("A" ++ emsp)) (PStr "Second")
       (PStr ("single" ++ nbsp)) blank
       (PStr "Go") blank blank blank blank blank].

Definition padded_survey : Survey :=
  mkSurvey "a_b" ("a" ++ nbsp ++ "b.xlsx") "Demo" EmptyString "Q2" "Готово"
    ("Спасибо! Ваши ответы:" ++ newline ++ "{answers}")
    [("A", mkQuestion "A" "single" "Second" EmptyString EmptyString
             EmptyString [mkOption 1 "Go" None] None);
     ("Q2", mkQuestion "Q2" "text" "Name" EmptyString EmptyString
              EmptyString [] None)].

End Example.

(* ------------------------------------------------------------------ *)
(** ** Properties *)

Lemma nonempty_false (s : string) :
  Str.nonempty s = false <-> s = EmptyString.
Proof. destruct s; simpl; split; congruence. Qed.

Lemma nonempty_true (s : string) :
  Str.nonempty s = true <-> s <> EmptyString.
Proof. destruct s; simpl; split; congruence. Qed.

Lemma length_append (a b : string) :
  String.length (a ++ b) = (String.length a + String.length b)%nat.
Proof. induction a as [|c a IH]; simpl; [reflexivity | now rewrite IH]. Qed.

(** *** Dictionaries *)

Section DictFacts.

Variable V : Type.
Implicit Types (d : dict V) (k : string) (v : V).

Lemma dict_get_set_same k v d : dict_get k (dict_set k v d) = Some v.
Proof.
  induction d as [|[k' v'] d IH]; simpl.
  - now rewrite String.eqb_refl.
  - destruct (String.eqb k' k) eqn:E; simpl; rewrite E; auto.
Qed.

Lemma dict_get_set_other k k' v d :
  k <> k' -> dict_get k' (dict_set k v d) = dict_get k' d.
Proof.
  intros Hne. induction d as [|[k0 v0] d IH]; simpl.
  - destruct (String.eqb_spec k k'); [contradiction | reflexivity].
  - destruct (String.eqb_spec k0 k) as [->|Hk]; simpl.
    + destruct (String.eqb_spec k k'); [contradiction | reflexivity].
    + now rewrite IH.
Qed.

Lemma dict_get_set_inv k k' v x d :
  dict_get k' (dict_set k v d) = Some x ->
  (k = k' /\ x = v) \/ dict_get k' d = Some x.
Proof.
  destruct (String.eqb_spec k k') as [->|Hne].
  - rewrite dict_get_set_same. intros [= ->]. now left.
  - rewrite dict_get_set_other by assumption. now right.
Qed.

Lemma dict_mem_keys k d : dict_mem k d = true <-> In k (dict_keys d).
Proof.
  unfold dict_mem. induction d as [|[k' v'] d IH]; simpl.
  - split; [discriminate | tauto].
  - destruct (String.eqb_spec k' k) as [->|Hne].
    + split; auto.
    + rewrite IH. split; [tauto | intros [H|H]; [contradiction | exact H]].
Qed.

Lemma dict_keys_set k v d :
  dict_keys (dict_set k v d) =
  if dict_mem k d then dict_keys d else (dict_keys d ++ [k])%list.
Proof.
  unfold dict_mem. induction d as [|[k' v'] d IH]; simpl; [reflexivity|].
  destruct (String.eqb_spec k' k) as [->|Hne]; simpl; [reflexivity|].
  rewrite IH. destruct (dict_get k d); reflexivity.
Qed.

Lemma dict_set_NoDup k v d :
  NoDup (dict_keys d) -> NoDup (dict_keys (dict_set k v d)).
Proof.
  intros Hd. rewrite dict_keys_set.
  destruct (dict_mem k d) eqn:E; [exact Hd|].
  apply NoDup_app; [exact Hd | repeat constructor; simpl; tauto |].
  intros x Hx [<-|[]]. apply dict_mem_keys in Hx. congruence.
Qed.

(** Assigning to a key of a dict that is not empty leaves the first key
    where it is. *)
Lemma dict_set_first k v k0 v0 d :
  exists v' d', dict_set k v ((k0, v0) :: d) = (k0, v') :: d'.
Proof. simpl. destruct (String.eqb k0 k); eauto. Qed.

End DictFacts.

(** *** The parser *)

Section ParserFacts.

Context {PF : PyRuntime} {PC : PyContainers}.

Lemma question_of_row_skipped (r : Series) :
  row_qid r = EmptyString -> question_of_row r = Skipped.
Proof. unfold row_qid, question_of_row. now intros ->. Qed.

Lemma question_of_row_skipped_inv (r : Series) :
  question_of_row r = Skipped -> row_qid r = EmptyString.
Proof.
  unfold row_qid, question_of_row.
  destruct (_safe_str (get r COL_QID)) eqn:E; [reflexivity|]. simpl.
  repeat match goal with |- context [if ?c then _ else _] => destruct c end;
    discriminate.
Qed.

Lemma question_of_row_built (r : Series) (q : Question) :
  question_of_row r = Built q ->
  qid q = row_qid r /\ Str.nonempty (qid q) = true
  /\ options q = gather_options r
  /\ Str.mem (qtype q) ["single"; "multi"; "text"; "number"] = true.
Proof.
  unfold row_qid, question_of_row.
  destruct (Str.nonempty (_safe_str (get r COL_QID))) eqn:E; cbn [negb];
    [|discriminate].
  destruct (Str.mem (_norm (_safe_str (get r COL_TYPE)))
              ["single"; "multi"; "text"; "number"]) eqn:T; cbn [negb];
    [|discriminate].
  destruct (_ && _); [discriminate|].
  intros [= <-]. simpl. auto.
Qed.

Lemma option_of_slot_idx (r : Series) (i : Z) (o : Option) :
  In o (option_of_slot r i) -> idx o = i.
Proof.
  unfold option_of_slot. destruct (Str.nonempty _); simpl; [|tauto].
  intros [<-|[]]. reflexivity.
Qed.

Lemma slots_ascending (r : Series) (slots : list Z) :
  StronglySorted Z.lt slots ->
  ascending (flat_map (option_of_slot r) slots)
  /\ forall o, In o (flat_map (option_of_slot r) slots) -> In (idx o) slots.
Proof.
  induction 1 as [|i slots Hs [IHa IHb] Hi]; simpl.
  - split; [constructor | tauto].
  - split.
    + unfold option_of_slot at 1. destruct (Str.nonempty _); simpl; [|exact IHa].
      constructor; [exact IHa|].
      rewrite Forall_forall. intros o Ho. simpl.
      rewrite Forall_forall in Hi. apply Hi, IHb, Ho.
    + intros o Ho. apply in_app_or in Ho. destruct Ho as [Ho|Ho].
      * left. symmetry. eapply option_of_slot_idx, Ho.
      * right. auto.
Qed.

Lemma gather_options_ascending (r : Series) : ascending (gather_options r).
Proof.
  apply slots_ascending. unfold answer_slots.
  repeat (constructor; [|repeat constructor; lia]). constructor.
Qed.

(** The loop over the concatenation of two lists of rows. *)
Lemma question_loop_app (file : string) (pre post : list Series)
    (acc : dict Question) :
  question_loop file (pre ++ post) acc =
  match question_loop file pre acc with
  | Ok mid => question_loop file post mid
  | Raise e => Raise e
  end.
Proof.
  revert acc. induction pre as [|r pre IH]; intros acc; simpl; [reflexivity|].
  destruct (question_of_row r); auto.
Qed.

(** The loop fails only on a row that is invalid by itself. *)
Lemma question_loop_total (file : string) (qrows : list Series)
    (acc : dict Question) :
  (forall r d, In r qrows -> question_of_row r <> Invalid d) ->
  exists qs, question_loop file qrows acc = Ok qs.
Proof.
  revert acc. induction qrows as [|r qrows IH]; intros acc Hv; simpl.
  - eauto.
  - destruct (question_of_row r) eqn:E.
    + apply IH. intros r' d Hr'. apply Hv. now right.
    + apply IH. intros r' d Hr'. apply Hv. now right.
    + exfalso. apply (Hv r d); [now left | exact E].
Qed.

Lemma question_loop_NoDup (file : string) (qrows : list Series)
    (acc qs : dict Question) :
  NoDup (dict_keys acc) ->
  question_loop file qrows acc = Ok qs -> NoDup (dict_keys qs).
Proof.
  revert acc. induction qrows as [|r qrows IH]; intros acc Hacc; simpl.
  - now intros [= <-].
  - destruct (question_of_row r); try discriminate; eauto using dict_set_NoDup.
Qed.

(** Rows that build no question with id [k] leave the entry of [k]
    alone. *)
Lemma question_loop_keeps (file : string) (k : string) (qrows : list Series)
    (acc qs : dict Question) :
  (forall r q, In r qrows -> question_of_row r = Built q -> qid q <> k) ->
  question_loop file qrows acc = Ok qs -> dict_get k qs = dict_get k acc.
Proof.
  revert acc. induction qrows as [|r qrows IH]; intros acc Hk; simpl.
  - now intros [= <-].
  - destruct (question_of_row r) eqn:E; try discriminate.
    + apply IH. intros r' q' Hr'. apply Hk. now right.
    + intros Hl. rewrite (IH _ (fun r' q' Hr' => Hk r' q' (or_intror Hr')) Hl).
      apply dict_get_set_other. apply (Hk r q); [now left | exact E].
Qed.

(** Every stored question was built from one of the rows, unless it was
    there before. *)
Lemma question_loop_origin (file : string) (k : string) (q : Question)
    (qrows : list Series) (acc qs : dict Question) :
  question_loop file qrows acc = Ok qs -> dict_get k qs = Some q ->
  dict_get k acc = Some q
  \/ exists r, In r qrows /\ question_of_row r = Built q /\ qid q = k.
Proof.
  revert acc. induction qrows as [|r qrows IH]; intros acc; simpl.
  - intros [= <-]. auto.
  - destruct (question_of_row r) eqn:E; try discriminate; intros Hl Hg.
    + destruct (IH _ Hl Hg) as [H|(r' & H1 & H2 & H3)]; eauto 6.
    + destruct (IH _ Hl Hg) as [H|(r' & H1 & H2 & H3)]; eauto 6.
      apply dict_get_set_inv in H. destruct H as [[<- ->]|H]; eauto 6.
Qed.

(** The first key of the result: the first key there was, or else the id
    of the first row that is not skipped. *)
Lemma question_loop_first (file : string) (qrows : list Series)
    (acc qs : dict Question) :
  question_loop file qrows acc = Ok qs ->
  match acc with
  | (k, _) :: _ => exists v rest, qs = (k, v) :: rest
  | [] =>
      match find (fun r => Str.nonempty (row_qid r)) qrows with
      | Some r => exists v rest, qs = (row_qid r, v) :: rest
      | None => qs = []
      end
  end.
Proof.
  revert acc. induction qrows as [|r qrows IH]; intros acc; simpl.
  - intros [= <-]. destruct acc as [|[k v] acc]; eauto.
  - destruct (question_of_row r) eqn:E; try discriminate; intros Hl.
    + apply question_of_row_skipped_inv in E. rewrite E. simpl.
      apply (IH _ Hl).
    + destruct (question_of_row_built _ E) as (Hq & Hn & _).
      specialize (IH _ Hl). destruct acc as [|[k v] acc].
      * simpl in IH. rewrite Hq in IH, Hn. rewrite Hn. exact IH.
      * destruct (dict_set_first (qid q) q k v acc) as (v' & d' & Hd).
        rewrite Hd in IH. exact IH.
Qed.

(** What a successful load went through. *)
Lemma load_survey_inv (path : string) (sheet : option DataFrame) (s : Survey) :
  load_survey_from_excel path sheet = Ok s ->
  exists df m ms first,
    sheet = Some df
    /\ filter (is_row "survey") (iterrows df) = m :: ms
    /\ question_loop (basename path)
         (filter (is_row "question") (iterrows df)) [] = Ok (questions s)
    /\ hd_error (dict_keys (questions s)) = Some first
    /\ key s = _slugify path
    /\ start_qid s =
         (if negb (Str.nonempty (_safe_str (get m COL_START_QID)))
             || negb (dict_mem (_safe_str (get m COL_START_QID)) (questions s))
          then first else _safe_str (get m COL_START_QID)).
Proof.
  unfold load_survey_from_excel. destruct sheet as [df|]; [|discriminate].
  destruct (negb _); [discriminate|].
  destruct (filter (is_row "survey") (iterrows df)) as [|m ms] eqn:Em;
    [discriminate|].
  destruct (question_loop _ _ _) as [qs|] eqn:El; [|discriminate].
  destruct qs as [|[first v] rest]; [discriminate|].
  intros [= <-]. simpl. exists df, m, ms, first. auto 10.
Qed.

Lemma load_survey_from_rows (path : string) (sheet : option DataFrame)
    (s : Survey) :
  load_survey_from_excel path sheet = Ok s -> from_rows s.
Proof.
  intros Hl k q Hq.
  destruct (load_survey_inv _ _ Hl) as (df & m & ms & f & _ & _ & Hloop & _).
  edestruct question_loop_origin as [H|[r [_ Hr]]];
    [exact Hloop | exact Hq | discriminate | eauto].
Qed.

(** The parser looks at the header, at the survey rows and at what the
    question loop makes of the question rows, and at nothing else. *)
Lemma load_survey_ext (path : string) (df df' : DataFrame) :
  stripped_columns df = stripped_columns df' ->
  filter (is_row "survey") (iterrows df)
  = filter (is_row "survey") (iterrows df') ->
  question_loop (basename path) (filter (is_row "question") (iterrows df)) []
  = question_loop (basename path)
      (filter (is_row "question") (iterrows df')) [] ->
  load_survey_from_excel path (Some df) = load_survey_from_excel path (Some df').
Proof.
  intros Hc Hs Hq. unfold load_survey_from_excel. now rewrite Hc, Hs, Hq.
Qed.

End ParserFacts.

Section ParserClaims.

Context {PF : PyRuntime} {PC : PyContainers}.

(** C3.  Whenever [load_survey_from_excel] returns a survey, its
    [start_qid] is a key of its [questions].  The survey row was found,
    and so was a first question row with a non-empty id: when the declared
    [StartQuestionId] is empty or is no key of [questions], [start_qid] is
    the id of that first row; otherwise it is the declared id. *)
Theorem start_qid_is_a_question (path : string) (sheet : option DataFrame)
    (s : Survey) :
  load_survey_from_excel path sheet = Ok s ->
  dict_mem (start_qid s) (questions s) = true
  /\ exists df m r,
       sheet = Some df
       /\ hd_error (filter (is_row "survey") (iterrows df)) = Some m
       /\ find (fun r => Str.nonempty (row_qid r))
            (filter (is_row "question") (iterrows df)) = Some r
       /\ (_safe_str (get m COL_START_QID) = EmptyString
           \/ dict_mem (_safe_str (get m COL_START_QID)) (questions s) = false
           -> start_qid s = row_qid r)
       /\ (_safe_str (get m COL_START_QID) <> EmptyString ->
           dict_mem (_safe_str (get m COL_START_QID)) (questions s) = true ->
           start_qid s = _safe_str (get m COL_START_QID)).
Proof.
  intros Hl.
  destruct (load_survey_inv _ _ Hl)
    as (df & m & ms & first & -> & Hm & Hloop & Hfirst & _ & Hstart).
  pose proof (question_loop_first _ _ _ Hloop) as Hf. cbv beta iota in Hf.
  destruct (find _ _) as [r|] eqn:Efind.
  2:{ rewrite Hf in Hfirst. discriminate. }
  destruct Hf as (v & rest & Hqs).
  assert (first = row_qid r) as ->.
  { rewrite Hqs in Hfirst. simpl in Hfirst. congruence. }
  assert (Hin : dict_mem (row_qid r) (questions s) = true).
  { apply dict_mem_keys. rewrite Hqs. now left. }
  split.
  - rewrite Hstart.
    destruct (Str.nonempty _); simpl; [|exact Hin].
    destruct (dict_mem (_safe_str _) (questions s)) eqn:Ed; simpl; auto.
  - exists df, m, r. rewrite Hm. repeat split; auto.
    + intros [He|He]; rewrite Hstart.
      * apply nonempty_false in He. now rewrite He.
      * rewrite He. now rewrite orb_true_r.
    + intros Hne Hmem. rewrite Hstart.
      apply nonempty_true in Hne. now rewrite Hne, Hmem.
Qed.

(** C9.  A question row whose id is empty is skipped: with or without
    it the parser gives the same result, error or survey.  When every
    question row has an empty id (required columns present, survey row
    found), the parser raises the [ValueError] "no questions found"; and a
    survey that is returned always has a question. *)
Theorem blank_id_rows_are_skipped :
  (forall path cols rows1 cells rows2,
     is_row "question" (combine (map Str.strip cols) cells) = true ->
     row_qid (combine (map Str.strip cols) cells) = EmptyString ->
     load_survey_from_excel path
       (Some (mkDataFrame cols (rows1 ++ cells :: rows2)))
     = load_survey_from_excel path (Some (mkDataFrame cols (rows1 ++ rows2))))
  /\ (forall path df m ms,
        filter (fun c => negb (Str.mem c (stripped_columns df))) required = [] ->
        filter (is_row "survey") (iterrows df) = m :: ms ->
        (forall r, In r (filter (is_row "question") (iterrows df)) ->
                   row_qid r = EmptyString) ->
        load_survey_from_excel path (Some df)
        = Raise (ValueError (basename path) NoQuestions))
  /\ (forall path sheet s,
        load_survey_from_excel path sheet = Ok s -> questions s <> []).
Proof.
  split; [|split].
  - intros path cols rows1 cells rows2 Hq Hid.
    assert (Hs : is_row "survey" (combine (map Str.strip cols) cells) = false).
    { unfold is_row in *. apply String.eqb_eq in Hq. now rewrite Hq. }
    apply load_survey_ext; unfold iterrows, stripped_columns;
      cbn [columns rows]; [reflexivity | |];
      rewrite !map_app, !filter_app; cbn [map filter].
    + now rewrite Hs.
    + rewrite Hq, !question_loop_app. cbn [question_loop].
      now rewrite (question_of_row_skipped _ Hid).
  - intros path df m ms Hcols Hm Hblank.
    unfold load_survey_from_excel. rewrite Hcols, Hm. cbn [is_nil negb].
    assert (Hloop : forall file qrows,
               (forall r, In r qrows -> row_qid r = EmptyString) ->
               question_loop file qrows [] = Ok []).
    { intros file qrows. induction qrows as [|r qrows IH]; intros Hb; simpl.
      - reflexivity.
      - rewrite (question_of_row_skipped r) by (apply Hb; now left).
        apply IH. intros r' Hr'. apply Hb. now right. }
    now rewrite (Hloop _ _ Hblank).
  - intros path sheet s Hl.
    destruct (load_survey_inv _ _ Hl) as (_ & _ & _ & first & _ & _ & _ & Hf & _).
    destruct (questions s); [discriminate | discriminate].
Qed.

(** C10.  Rows that repeat an id raise nothing: the question loop fails
    only on a row that is invalid by itself.  In the mapping of a survey
    the parser returns every key occurs once, and a key holds the question
    built from the last question row with that id. *)
Theorem duplicate_ids_last_row_wins :
  (forall file qrows acc,
     (forall r d, In r qrows -> question_of_row r <> Invalid d) ->
     exists qs, question_loop file qrows acc = Ok qs)
  /\ (forall path sheet s,
        load_survey_from_excel path sheet = Ok s ->
        exists df,
          sheet = Some df
          /\ NoDup (dict_keys (questions s))
          /\ forall pre r post q,
               filter (is_row "question") (iterrows df)
               = (pre ++ r :: post)%list ->
               question_of_row r = Built q ->
               (forall r' q', In r' post -> question_of_row r' = Built q' ->
                              qid q' <> qid q) ->
               dict_get (qid q) (questions s) = Some q).
Proof.
  split; [exact question_loop_total|].
  intros path sheet s Hl.
  destruct (load_survey_inv _ _ Hl) as (df & m & ms & f & -> & _ & Hqs & _).
  exists df. split; [reflexivity|]. split.
  - eapply question_loop_NoDup; [|exact Hqs]. constructor.
  - intros pre r post q Hrows Hr Hlast.
    rewrite Hrows, question_loop_app in Hqs.
    destruct (question_loop (basename path) pre []) as [mid|] eqn:Epre;
      [|discriminate].
    simpl in Hqs. rewrite Hr in Hqs.
    erewrite question_loop_keeps; [apply dict_get_set_same | | exact Hqs].
    exact Hlast.
Qed.

End ParserClaims.

(** *** The registry *)

Section RegistryFacts.

Context {PF : PyRuntime} {PC : PyContainers}.

Lemma register_from_rows (surveys : dict Survey) (s : Survey) :
  (forall k x, dict_get k surveys = Some x -> from_rows x) ->
  from_rows s ->
  forall k x, dict_get k (register surveys s) = Some x -> from_rows x.
Proof.
  intros Hreg Hs k x. unfold register.
  destruct (dict_mem (key s) surveys); intros Hx;
    apply dict_get_set_inv in Hx; destruct Hx as [[_ ->]|Hx]; eauto.
Qed.

Lemma discover_from_rows (data_dir : string)
    (entries : list (string * option DataFrame)) (surveys reg : dict Survey) :
  (forall k x, dict_get k surveys = Some x -> from_rows x) ->
  discover data_dir entries surveys = Ok reg ->
  forall k x, dict_get k reg = Some x -> from_rows x.
Proof.
  revert surveys. induction entries as [|[name sheet] rest IH];
    intros surveys Hreg; simpl.
  - now intros [= <-].
  - destruct (negb _); [now apply IH|].
    destruct (Str.startswith name "~$"); [now apply IH|].
    destruct (load_survey_from_excel _ sheet) as [s|] eqn:El; [|discriminate].
    apply IH. apply register_from_rows; [exact Hreg|].
    eapply load_survey_from_rows, El.
Qed.

(** Every survey the registry serves was read by the parser. *)
Lemma load_all_surveys_from_rows (data_dir : string)
    (listing : option (list (string * option DataFrame)))
    (SURVEYS : dict Survey) (k : string) (s : Survey) :
  load_all_surveys data_dir listing = Ok SURVEYS ->
  get_survey_or_404 SURVEYS k = Some s -> from_rows s.
Proof.
  unfold load_all_surveys, get_survey_or_404. destruct listing as [entries|].
  - intros Hd Hs. eapply discover_from_rows; [|exact Hd|exact Hs].
    discriminate.
  - intros [= <-]. discriminate.
Qed.

(** C5 (as the code has it).  When the key of a loaded survey is already
    in the registry, the survey is stored under that key followed by an
    underscore and the registry size plus one.  The new key differs from
    the key of the first instance, which stays registered; the discovery
    loop goes on with that registry. *)
Theorem colliding_key_is_suffixed (surveys : dict Survey) (s : Survey) :
  dict_mem (key s) surveys = true ->
  register surveys s
  = dict_set (key s ++ "_" ++ Str.of_Z (dict_len surveys + 1))
      (with_key s (key s ++ "_" ++ Str.of_Z (dict_len surveys + 1))) surveys
  /\ key s ++ "_" ++ Str.of_Z (dict_len surveys + 1) <> key s
  /\ dict_get (key s ++ "_" ++ Str.of_Z (dict_len surveys + 1))
       (register surveys s)
     = Some (with_key s (key s ++ "_" ++ Str.of_Z (dict_len surveys + 1)))
  /\ dict_get (key s) (register surveys s) = dict_get (key s) surveys
  /\ forall data_dir name sheet rest,
       Str.endswith (str_lower name) ".xlsx" = true ->
       Str.startswith name "~$" = false ->
       load_survey_from_excel (path_join data_dir name) sheet = Ok s ->
       discover data_dir ((name, sheet) :: rest) surveys
       = discover data_dir rest (register surveys s).
Proof.
  intros Hin.
  assert (Hne : key s ++ "_" ++ Str.of_Z (dict_len surveys + 1) <> key s).
  { intros He. apply (f_equal String.length) in He.
    rewrite !length_append in He. simpl in He. lia. }
  assert (Hreg : register surveys s
                 = dict_set (key s ++ "_" ++ Str.of_Z (dict_len surveys + 1))
                     (with_key s (key s ++ "_" ++ Str.of_Z (dict_len surveys + 1)))
                     surveys).
  { unfold register, suffixed_key. now rewrite Hin. }
  split; [exact Hreg|]. split; [exact Hne|]. rewrite Hreg. split; [|split].
  - apply dict_get_set_same.
  - now apply dict_get_set_other.
  - intros data_dir name sheet rest He Hs Hl. simpl.
    now rewrite He, Hs, Hl, Hreg.
Qed.

End RegistryFacts.

(** *** The engine *)

Section EngineFacts.

Context {PF : PyRuntime} {PC : PyContainers}.

Lemma payload_dict (data : dict pyval) : payload (PDict data) = PDict data.
Proof. destruct data; reflexivity. Qed.

(** [api_answer] once the question is found. *)
Lemma api_answer_found (s : Survey) (data : dict pyval) (q : Question) :
  _safe_str (get data "qid") <> EmptyString ->
  dict_get (_safe_str (get data "qid")) (questions s) = Some q ->
  api_answer s (PDict data) =
  match evaluate q data with
  | Rejected error status => Error error None status
  | Accepted value_text next_qid =>
      conclude s (_safe_str (get data "qid")) q
        (py_or (get data "answers") (PList [])) value_text next_qid
  end.
Proof.
  intros Hne Hq. unfold api_answer. rewrite payload_dict.
  apply nonempty_true in Hne. cbv zeta. now rewrite Hne, Hq.
Qed.

Lemma evaluate_single (q : Question) (data : dict pyval) :
  qtype q = "single" ->
  evaluate q data =
  match as_int (get data "option_idx") with
  | None => Rejected "bad_request" 400
  | Some option_idx =>
      match find (fun o => idx o =? option_idx) (options q) with
      | None => Rejected "invalid_option" 400
      | Some opt => Accepted (text opt) (next_qid opt)
      end
  end.
Proof. unfold evaluate. now intros ->. Qed.

Lemma evaluate_multi (q : Question) (data : dict pyval) :
  qtype q = "multi" ->
  evaluate q data =
  match get data "option_idxs" with
  | PList l =>
      match all_ints l with
      | None => Rejected "bad_request" 400
      | Some idxs =>
          if is_nil (chosen_texts (options q) (sorted_set idxs))
          then Rejected "no_selection" 400
          else Accepted
                 (Str.join ", " (chosen_texts (options q) (sorted_set idxs)))
                 (next_id q)
      end
  | _ => Rejected "bad_request" 400
  end.
Proof. unfold evaluate. now intros ->. Qed.

Lemma evaluate_text (q : Question) (data : dict pyval) :
  qtype q = "text" ->
  evaluate q data =
  if negb (Str.nonempty (_safe_str (get data "value")))
  then Rejected "empty_value" 400
  else Accepted (_safe_str (get data "value")) (next_id q).
Proof. unfold evaluate. now intros ->. Qed.

Lemma evaluate_number (q : Question) (data : dict pyval) :
  qtype q = "number" ->
  evaluate q data =
  match get data "value" with
  | PInt _ | PBool _ | PFloat _ => Accepted (py_str (get data "value")) (next_id q)
  | _ =>
      match float_of_str (_safe_str (get data "value")) with
      | None => Rejected "bad_number" 400
      | Some f => Accepted (str_of_float f) (next_id q)
      end
  end.
Proof. unfold evaluate. now intros ->. Qed.

(** [sorted(set(l))] has the members of [l], in strictly ascending
    order. *)
Lemma insert_uniq_In (x y : Z) (l : list Z) :
  In y (insert_uniq x l) <-> y = x \/ In y l.
Proof.
  induction l as [|z l IH]; simpl.
  - intuition.
  - destruct (Z.ltb_spec x z); simpl; [intuition|].
    destruct (Z.eqb_spec x z); simpl; [subst; intuition|].
    rewrite IH. intuition.
Qed.

Lemma sorted_set_In (y : Z) (l : list Z) : In y (sorted_set l) <-> In y l.
Proof.
  induction l as [|x l IH]; simpl; [tauto|].
  rewrite insert_uniq_In, IH. intuition.
Qed.

Lemma insert_uniq_sorted (x : Z) (l : list Z) :
  StronglySorted Z.lt l -> StronglySorted Z.lt (insert_uniq x l).
Proof.
  induction 1 as [|z l Hs IH Hz]; simpl.
  - repeat constructor.
  - destruct (Z.ltb_spec x z).
    + constructor; [now constructor|]. constructor; [exact H|].
      eapply Forall_impl; [|exact Hz]. simpl. intros; lia.
    + destruct (Z.eqb_spec x z); [now constructor|].
      constructor; [exact IH|].
      rewrite Forall_forall. intros y Hy. apply insert_uniq_In in Hy.
      destruct Hy as [->|Hy]; [lia|].
      rewrite Forall_forall in Hz. auto.
Qed.

Lemma sorted_set_sorted (l : list Z) : StronglySorted Z.lt (sorted_set l).
Proof.
  induction l as [|x l IH]; simpl; [constructor | now apply insert_uniq_sorted].
Qed.

Lemma mem_Z_In (x : Z) (l : list Z) : mem_Z x l = true <-> In x l.
Proof.
  unfold mem_Z. rewrite existsb_exists. split.
  - intros (y & Hy & He). apply Z.eqb_eq in He. now subst.
  - intros Hx. exists x. split; [exact Hx | apply Z.eqb_refl].
Qed.

Lemma ascending_filter (f : Option -> bool) (opts : list Option) :
  ascending opts -> ascending (filter f opts).
Proof.
  induction 1 as [|o opts Hs IH Ho]; simpl; [constructor|].
  destruct (f o); [|exact IH]. constructor; [exact IH|].
  rewrite Forall_forall in *. intros x Hx. apply filter_In in Hx.
  apply Ho, Hx.
Qed.

(** An ascending list is determined by its members. *)
Lemma ascending_unique (l1 l2 : list Option) :
  ascending l1 -> ascending l2 -> (forall o, In o l1 <-> In o l2) -> l1 = l2.
Proof.
  intros H1. revert l2. induction H1 as [|a l1 Hs IH Ha]; intros l2 H2 Hm.
  - destruct l2 as [|b l2]; [reflexivity|].
    destruct (proj2 (Hm b) (or_introl eq_refl)).
  - destruct H2 as [|b l2 Hs2 Hb].
    + destruct (proj1 (Hm a) (or_introl eq_refl)).
    + rewrite Forall_forall in Ha, Hb.
      assert (a = b) as <-.
      { destruct (proj1 (Hm a) (or_introl eq_refl)) as [E|E]; [now symmetry|].
        destruct (proj2 (Hm b) (or_introl eq_refl)) as [E'|E']; [exact E'|].
        specialize (Ha _ E'). specialize (Hb _ E). lia. }
      f_equal. apply IH; [exact Hs2|].
      intros o. split; intros Ho.
      * destruct (proj1 (Hm o) (or_intror Ho)) as [E|E]; [|exact E].
        subst o. specialize (Ha _ Ho). lia.
      * destruct (proj2 (Hm o) (or_intror Ho)) as [E|E]; [|exact E].
        subst o. specialize (Hb _ Ho). lia.
Qed.

(** The options the [multi] branch keeps are the resolved selection. *)
Lemma chosen_is_resolved (opts : list Option) (idxs : list Z) :
  ascending opts ->
  resolved_selection opts idxs
    (filter (fun o => mem_Z (idx o) (sorted_set idxs)) opts).
Proof.
  intros Ha. split; [now apply ascending_filter|].
  intros o. rewrite filter_In, mem_Z_In, sorted_set_In. tauto.
Qed.

End EngineFacts.

Section EngineClaims.

Context {PF : PyRuntime} {PC : PyContainers}.

Lemma answer_line_record (k : string) (q : Question) (v : string) :
  answer_line (answer_record k q v) = Some (label k q ++ ": " ++ v).
Proof.
  unfold answer_line, answer_record, label, or_default, py_or, get.
  cbn [dict_get String.eqb Ascii.eqb Bool.eqb].
  destruct (q_title q), k, v; reflexivity.
Qed.

Lemma answer_lines_app (l1 l2 : list pyval) :
  answer_lines (l1 ++ l2) =
  match answer_lines l1, answer_lines l2 with
  | Some a, Some b => Some (a ++ b)%list
  | _, _ => None
  end.
Proof.
  induction l1 as [|x l1 IH]; simpl.
  - now destruct (answer_lines l2).
  - destruct (answer_line x); [|reflexivity]. rewrite IH.
    destruct (answer_lines l1), (answer_lines l2); reflexivity.
Qed.

Lemma answer_lines_dicts (l : list pyval) :
  Forall is_dict l -> exists lines, answer_lines l = Some lines.
Proof.
  induction 1 as [|x l [d ->] _ [lines IH]]; simpl; [eauto|].
  rewrite IH. eauto.
Qed.

(** A list of dicts followed by the new record always renders. *)
Lemma render_final_total (template : string) (prior : list pyval)
    (k : string) (q : Question) (v : string) :
  Forall is_dict prior ->
  exists final, render_final template (prior ++ [answer_record k q v])
                = Some final.
Proof.
  intros Hp. unfold render_final, _answers_to_text.
  rewrite answer_lines_app. destruct (answer_lines_dicts Hp) as [lines ->].
  cbn [answer_lines]. rewrite answer_line_record. eauto.
Qed.

(** C1 (as the code has it).  A [single] question is answered with the
    index of one of its options, [opt] being the first option with that
    index, and the prior answers are something [list] accepts.  The type
    branch accepts the answer with the text of [opt] as value and the next
    id of [opt]; no client error is sent.  The response finishes when
    that next id is empty, advances to it when it is a key of the
    survey's questions, and is the fault [next_question_missing] (500)
    when it is not; the record appended carries the text of [opt].  The
    finish text is [_answers_to_text] of the prior answers and the new
    record: it exists when the prior answers are dicts, and the response
    then finishes with it; a prior answer that is no dict makes it
    raise. *)
Theorem single_valid_option (s : Survey) (data : dict pyval) (q : Question)
    (i : Z) (opt : Option) (prior : list pyval) :
  _safe_str (get data "qid") <> EmptyString ->
  dict_get (_safe_str (get data "qid")) (questions s) = Some q ->
  qtype q = "single" ->
  as_int (get data "option_idx") = Some i ->
  find (fun o => idx o =? i) (options q) = Some opt ->
  py_list (py_or (get data "answers") (PList [])) = Some prior ->
  evaluate q data = Accepted (text opt) (next_qid opt)
  /\ api_answer s (PDict data) =
     match target (next_qid opt) with
     | Some n =>
         if dict_mem n (questions s)
         then Advanced n
                (prior ++ [answer_record (_safe_str (get data "qid")) q (text opt)])
         else Error "next_question_missing" (Some n) 500
     | None =>
         match render_final (final_text s)
                 (prior ++ [answer_record (_safe_str (get data "qid")) q (text opt)])
         with
         | Some final =>
             Finished (final_title s) final
               (prior ++ [answer_record (_safe_str (get data "qid")) q (text opt)])
         | None => Unhandled
         end
     end
  /\ (Forall is_dict prior ->
      exists final,
        render_final (final_text s)
          (prior ++ [answer_record (_safe_str (get data "qid")) q (text opt)])
        = Some final
        /\ (target (next_qid opt) = None ->
            api_answer s (PDict data)
            = Finished (final_title s) final
                (prior
                 ++ [answer_record (_safe_str (get data "qid")) q (text opt)]))).
Proof.
  intros Hne Hq Ht Hi Hf Hp.
  assert (He : evaluate q data = Accepted (text opt) (next_qid opt)).
  { rewrite evaluate_single by exact Ht. now rewrite Hi, Hf. }
  assert (Ha : api_answer s (PDict data)
               = conclude s (_safe_str (get data "qid")) q
                   (py_or (get data "answers") (PList [])) (text opt)
                   (next_qid opt)).
  { erewrite api_answer_found by eassumption. now rewrite He. }
  split; [exact He|]. split.
  - rewrite Ha. unfold conclude. rewrite Hp.
    destruct (target (next_qid opt)); [|reflexivity].
    now destruct (dict_mem s0 (questions s)).
  - intros Hd.
    destruct (render_final_total (final_text s)
                (_safe_str (get data "qid")) q (text opt) Hd) as [final Hr].
    exists final. split; [exact Hr|]. intros Hn.
    rewrite Ha. unfold conclude. now rewrite Hp, Hn, Hr.
Qed.

(** C7 (as the code has it).  The type branch accepts the answer with a
    next id that is not empty and is no key of the survey's questions,
    and the prior answers are something [list] accepts (line 349 comes
    before the look-up of the next id): the response is the error
    [next_question_missing] with status 500 and the missing id; it carries
    no answers, so it neither advances nor finishes. *)
Theorem missing_next_question_is_a_fault (s : Survey) (data : dict pyval)
    (q : Question) (v n : string) (prior : list pyval) :
  _safe_str (get data "qid") <> EmptyString ->
  dict_get (_safe_str (get data "qid")) (questions s) = Some q ->
  evaluate q data = Accepted v (Some n) ->
  n <> EmptyString ->
  dict_mem n (questions s) = false ->
  py_list (py_or (get data "answers") (PList [])) = Some prior ->
  api_answer s (PDict data) = Error "next_question_missing" (Some n) 500
  /\ response_answers (api_answer s (PDict data)) = None.
Proof.
  intros Hne Hq He Hn Hm Hp.
  assert (Hr : api_answer s (PDict data)
               = Error "next_question_missing" (Some n) 500).
  { erewrite api_answer_found by eassumption. rewrite He.
    unfold conclude, target.
    apply nonempty_true in Hn. now rewrite Hp, Hn, Hm. }
  now rewrite Hr.
Qed.

(** C6.  On a [number] question an int or a float is accepted and
    rendered by [str]; a string is stripped and given to [float]: when
    that succeeds the answer is accepted and rendered as [str] of the
    float, when it raises the response is the error [bad_number] with
    status 400.  An accepted answer continues with the question's
    [next_id]. *)
Theorem number_payloads (s : Survey) (data : dict pyval) (q : Question) :
  _safe_str (get data "qid") <> EmptyString ->
  dict_get (_safe_str (get data "qid")) (questions s) = Some q ->
  qtype q = "number" ->
  (forall z, get data "value" = PInt z ->
             evaluate q data = Accepted (Str.of_Z z) (next_id q))
  /\ (forall f, get data "value" = PFloat f ->
                evaluate q data = Accepted (str_of_float f) (next_id q))
  /\ (forall str f, get data "value" = PStr str ->
                    float_of_str (Str.strip str) = Some f ->
                    evaluate q data = Accepted (str_of_float f) (next_id q))
  /\ (forall str, get data "value" = PStr str ->
                  float_of_str (Str.strip str) = None ->
                  evaluate q data = Rejected "bad_number" 400
                  /\ api_answer s (PDict data) = Error "bad_number" None 400)
  /\ (forall v n, evaluate q data = Accepted v n ->
                  n = next_id q
                  /\ api_answer s (PDict data)
                     = conclude s (_safe_str (get data "qid")) q
                         (py_or (get data "answers") (PList [])) v (next_id q)).
Proof.
  intros Hne Hq Ht. erewrite api_answer_found by eassumption.
  rewrite evaluate_number by exact Ht.
  split; [|split; [|split; [|split]]].
  - intros z Hv. now rewrite Hv.
  - intros f Hv. now rewrite Hv.
  - intros str f Hv Hf. rewrite Hv. cbn [_safe_str pd_isna py_str].
    now rewrite Hf.
  - intros str Hv Hf. rewrite Hv. cbn [_safe_str pd_isna py_str].
    now rewrite Hf.
  - intros v n He.
    destruct (get data "value");
      try (injection He as <- <-; split; reflexivity);
      (destruct (float_of_str _); [|discriminate]);
      injection He as <- <-; split; reflexivity.
Qed.

(** C2.  The survey is one the registry serves, the question is [multi]
    and the submitted list holds ints, one of which at least is the index
    of an option.  Then the answer is accepted; its value joins with
    ", " the texts of the resolved selection [sel], that is of the
    options whose index was submitted, each once and in ascending index
    order; and the engine continues with the question's [next_id]. *)
Theorem multi_selection_rendering (data_dir : string)
    (listing : option (list (string * option DataFrame)))
    (SURVEYS : dict Survey) (survey_key : string) (s : Survey)
    (data : dict pyval) (q : Question) (l : list pyval) (idxs : list Z)
    (sel : list Option) :
  load_all_surveys data_dir listing = Ok SURVEYS ->
  get_survey_or_404 SURVEYS survey_key = Some s ->
  dict_get (_safe_str (get data "qid")) (questions s) = Some q ->
  qtype q = "multi" ->
  get data "option_idxs" = PList l ->
  all_ints l = Some idxs ->
  (exists o, In o (options q) /\ In (idx o) idxs) ->
  resolved_selection (options q) idxs sel ->
  evaluate q data = Accepted (Str.join ", " (map text sel)) (next_id q)
  /\ api_answer s (PDict data)
     = conclude s (_safe_str (get data "qid")) q
         (py_or (get data "answers") (PList []))
         (Str.join ", " (map text sel)) (next_id q).
Proof.
  intros Hreg Hs Hq Ht Hl Hi [o [Ho1 Ho2]] Hsel.
  destruct (load_all_surveys_from_rows _ _ _ Hreg Hs _ Hq) as (r & Hr & Hk).
  destruct (question_of_row_built _ Hr) as (_ & Hne & Hopts & _).
  assert (Hasc : ascending (options q))
    by (rewrite Hopts; apply gather_options_ascending).
  pose proof (chosen_is_resolved idxs Hasc) as Hc.
  assert (Heq : filter (fun o => mem_Z (idx o) (sorted_set idxs)) (options q)
                = sel).
  { destruct Hc as [Hc1 Hc2], Hsel as [Hs1 Hs2].
    apply ascending_unique; [exact Hc1 | exact Hs1|].
    intros x. rewrite Hc2, Hs2. tauto. }
  assert (He : evaluate q data
               = Accepted (Str.join ", " (map text sel)) (next_id q)).
  { rewrite evaluate_multi by exact Ht. rewrite Hl, Hi.
    unfold chosen_texts. rewrite Heq.
    destruct sel as [|x sel]; [|reflexivity].
    destruct Hsel as [_ Hs2]. destruct (proj2 (Hs2 o) (conj Ho1 Ho2)). }
  split; [exact He|].
  rewrite api_answer_found with (q := q); [now rewrite He | | exact Hq].
  rewrite Hk in Hne. apply nonempty_true. exact Hne.
Qed.

End EngineClaims.

(** *** Rejections *)

Section Rejections.

Context {PF : PyRuntime} {PC : PyContainers}.

Lemma find_all_false (A : Type) (f : A -> bool) (l : list A) :
  (forall x, In x l -> f x = false) -> find f l = None.
Proof.
  induction l as [|a l IH]; simpl; intros H; [reflexivity|].
  rewrite (H a) by now left. apply IH. intros x Hx. apply H. now right.
Qed.

Lemma filter_all_false (A : Type) (f : A -> bool) (l : list A) :
  (forall x, In x l -> f x = false) -> filter f l = [].
Proof.
  induction l as [|a l IH]; simpl; intros H; [reflexivity|].
  rewrite (H a) by now left. apply IH. intros x Hx. apply H. now right.
Qed.

Lemma turned_down_evaluate (q : Question) (data : dict pyval) (code : string) :
  turned_down q data code -> evaluate q data = Rejected code 400.
Proof.
  intros H. destruct H as [Ht Hi|i Ht Hi Hn|Ht Hl|l Ht Hl Hi|l idxs Ht Hl Hi Hn
                           |Ht Hv|Ht Hi Hf Hp].
  - rewrite evaluate_single by exact Ht. now rewrite Hi.
  - rewrite evaluate_single by exact Ht. rewrite Hi.
    rewrite find_all_false; [reflexivity|].
    intros o Ho. apply Z.eqb_neq. now apply Hn.
  - rewrite evaluate_multi by exact Ht.
    destruct (get data "option_idxs"); try reflexivity.
    now destruct (Hl l).
  - rewrite evaluate_multi by exact Ht. now rewrite Hl, Hi.
  - rewrite evaluate_multi by exact Ht. rewrite Hl, Hi.
    unfold chosen_texts. rewrite filter_all_false; [reflexivity|].
    intros o Ho. destruct (mem_Z (idx o) (sorted_set idxs)) eqn:E;
      [|reflexivity].
    rewrite mem_Z_In, sorted_set_In in E. exfalso. exact (Hn o Ho E).
  - rewrite evaluate_text by exact Ht. now rewrite Hv.
  - rewrite evaluate_number by exact Ht.
    destruct (get data "value"); try discriminate; try (now rewrite Hp).
    now destruct (Hf f).
Qed.

Lemma evaluate_turned_down (q : Question) (data : dict pyval) (code : string) :
  evaluate q data = Rejected code 400 -> turned_down q data code.
Proof.
  unfold evaluate.
  destruct (String.eqb_spec (qtype q) "single") as [Ht|_].
  { destruct (as_int (get data "option_idx")) as [i|] eqn:Hi.
    - destruct (find _ (options q)) eqn:Hf; [discriminate|].
      intros [= <-]. apply single_no_such_option with (i := i); auto.
      intros o Ho. apply Z.eqb_neq. apply (find_none _ _ Hf o Ho).
    - intros [= <-]. now apply single_not_an_int. }
  destruct (String.eqb_spec (qtype q) "multi") as [Ht|_].
  { destruct (get data "option_idxs") as [| | | | |l|] eqn:Hl;
      try (intros [= <-]; apply multi_not_a_list;
           [exact Ht | intros l'; rewrite Hl; discriminate]).
    destruct (all_ints l) as [idxs|] eqn:Hi.
    - destruct (is_nil _) eqn:Hn; [|discriminate].
      intros [= <-]. apply multi_nothing_resolves with (l := l) (idxs := idxs);
        auto.
      intros o Ho Hin. unfold chosen_texts in Hn.
      assert (Hf : In o (filter (fun o => mem_Z (idx o) (sorted_set idxs))
                           (options q))).
      { apply filter_In. split; [exact Ho|].
        now rewrite mem_Z_In, sorted_set_In. }
      destruct (filter _ (options q)); [destruct Hf | discriminate].
    - intros [= <-]. now apply multi_not_all_ints with (l := l). }
  destruct (String.eqb_spec (qtype q) "text") as [Ht|_].
  { destruct (Str.nonempty (_safe_str (get data "value"))) eqn:Hv;
      [discriminate|].
    intros [= <-]. apply text_empty; [exact Ht|].
    now apply nonempty_false. }
  destruct (String.eqb_spec (qtype q) "number") as [Ht|_].
  { destruct (get data "value") eqn:Hv; try discriminate;
      (destruct (float_of_str _) eqn:Hf; [discriminate|]);
      intros [= <-]; apply number_unparsable; auto;
      rewrite ?Hv; try reflexivity; try discriminate; try exact Hf. }
  discriminate.
Qed.

(** Every response with status 400 answers a rejected submission. *)
Lemma client_error_is_rejection (s : Survey) (data : dict pyval)
    (code : string) (n : option string) :
  api_answer s (PDict data) = Error code n 400 ->
  n = None /\ rejected s data code.
Proof.
  unfold api_answer. rewrite payload_dict. cbv zeta.
  destruct (Str.nonempty (_safe_str (get data "qid"))) eqn:Hq; cbn [negb].
  - destruct (dict_get _ (questions s)) as [q|] eqn:Hg; [|discriminate].
    destruct (evaluate q data) as [e st|v nx] eqn:He.
    + intros [= <- <- ->]. split; [reflexivity|].
      apply bad_answer with (q := q); [exact Hg | now apply nonempty_true |].
      now apply evaluate_turned_down.
    + unfold conclude. destruct (py_list _); [|discriminate].
      destruct (target nx).
      * destruct (negb _); discriminate.
      * destruct (render_final _ _); discriminate.
  - intros [= <- <-]. split; [reflexivity|].
    apply no_qid. now apply nonempty_false.
Qed.

(** A response that carries answers carries the prior answers followed
    by one new record. *)
Lemma answers_grow_by_one (s : Survey) (data : dict pyval)
    (answers : list pyval) :
  response_answers (api_answer s (PDict data)) = Some answers ->
  exists prior q v,
    py_list (py_or (get data "answers") (PList [])) = Some prior
    /\ answers
       = (prior ++ [answer_record (_safe_str (get data "qid")) q v])%list.
Proof.
  unfold api_answer. rewrite payload_dict. cbv zeta.
  destruct (negb _); [discriminate|].
  destruct (dict_get _ (questions s)) as [q|]; [|discriminate].
  destruct (evaluate q data) as [e st|v nx]; [discriminate|].
  unfold conclude. destruct (py_list _) as [prior|]; [|discriminate].
  destruct (target nx).
  - destruct (negb _); [discriminate|]. intros [= <-]. eauto.
  - destruct (render_final _ _); [|discriminate]. intros [= <-]. eauto.
Qed.

(** A body that is no JSON, or is empty, is read as the empty dict. *)
Lemma api_answer_payload (s : Survey) (body : pyval) (data : dict pyval) :
  payload body = PDict data -> api_answer s body = api_answer s (PDict data).
Proof. intros H. unfold api_answer. now rewrite payload_dict, H. Qed.

(** C8.  A rejected submission (no usable [qid], as with a body that is
    no JSON; for [single] an [option_idx] that is no int or matches no
    option; for [multi] an [option_idxs] that is no list of ints or
    resolves to no option, the empty list included; for [text] a value
    that is empty once stripped; for [number] a value [float] does not
    parse) is answered with its error code and status 400, and the
    response carries no answers: nothing was appended, and what the caller
    holds is what it sent. *)
Theorem rejections_append_nothing (s : Survey) (body : pyval)
    (data : dict pyval) (code : string) :
  payload body = PDict data ->
  rejected s data code ->
  api_answer s body = Error code None 400
  /\ response_answers (api_answer s body) = None.
Proof.
  intros Hp H. rewrite (api_answer_payload s body Hp).
  assert (Hr : api_answer s (PDict data) = Error code None 400).
  { destruct H as [Hq|q code Hg Hne Ht].
    - unfold api_answer. rewrite payload_dict. cbv zeta. now rewrite Hq.
    - erewrite api_answer_found by eassumption.
      now rewrite (turned_down_evaluate Ht). }
  now rewrite Hr.
Qed.

End Rejections.

(** *** The result formatter *)

Lemma prefix_drop' (p s : string) :
  String.prefix p s = true -> s = p ++ Str.drop (String.length p) s.
Proof.
  revert s. induction p as [|c o IH]; intros s; [reflexivity|].
  destruct s as [|d s]; simpl; [discriminate|].
  destruct (Ascii.ascii_dec c d) as [->|]; [|discriminate].
  intros H. now rewrite <- (IH s H).
Qed.

Section ReplaceFacts.

Variables old new : string.

Lemma prefix_append (b : string) : String.prefix old (old ++ b) = true.
Proof.
  induction old as [|c o IH]; simpl; [now destruct b|].
  destruct (Ascii.ascii_dec c c); [exact IH | contradiction].
Qed.

Lemma prefix_drop (s : string) :
  String.prefix old s = true -> s = old ++ Str.drop (String.length old) s.
Proof. apply prefix_drop'. Qed.

Lemma replace_from_skip (x t : string) :
  Str.replace_from old new (String.length x) (x ++ t)
  = Str.replace_from old new 0 t.
Proof. induction x as [|c x IH]; simpl; [reflexivity | exact IH]. Qed.

(** Without an occurrence of [old] nothing changes. *)
Lemma replace_absent (s : string) :
  Str.split_first old s = None -> Str.replace old new s = s.
Proof.
  unfold Str.replace. induction s as [|c s IH]; [reflexivity|].
  cbn [Str.split_first Str.replace_from].
  destruct (String.prefix old (String c s)); [discriminate|].
  destruct (Str.split_first old s) as [[a b]|]; [discriminate|].
  intros _. now rewrite IH.
Qed.

(** The first occurrence is replaced, and the replacement goes on after
    it. *)
Lemma replace_first (s a b : string) :
  old <> EmptyString ->
  Str.split_first old s = Some (a, b) ->
  s = a ++ old ++ b
  /\ Str.replace old new s = a ++ new ++ Str.replace old new b.
Proof.
  intros Hold. unfold Str.replace. revert a b.
  induction s as [|c s IH]; intros a b; [discriminate|].
  cbn [Str.split_first Str.replace_from].
  destruct (String.prefix old (String c s)) eqn:P.
  - intros [= <- <-]. split; [now apply prefix_drop|].
    destruct old as [|o old'] eqn:Eo; [contradiction|].
    simpl in P. destruct (Ascii.ascii_dec o c); [|discriminate].
    change (String.length (String o old') - 1)%nat
      with (String.length old' - 0)%nat.
    change (Str.drop (String.length (String o old')) (String c s))
      with (Str.drop (String.length old') s).
    rewrite Nat.sub_0_r. cbn [append]. f_equal. rewrite <- Eo.
    rewrite (prefix_drop' _ _ P) at 1. apply replace_from_skip.
  - destruct (Str.split_first old s) as [[a' b']|]; [|discriminate].
    intros [= <- <-]. destruct (IH a' b' eq_refl) as [H1 H2].
    simpl. split; [now rewrite <- H1 | now rewrite H2].
Qed.

(** A text in which [old] does not occur has no first occurrence. *)
Lemma split_first_absent (s : string) :
  (forall a b, s <> a ++ old ++ b) -> Str.split_first old s = None.
Proof.
  induction s as [|c s IH]; intros H; [reflexivity|].
  cbn [Str.split_first].
  destruct (String.prefix old (String c s)) eqn:P.
  - exfalso. apply (H EmptyString (Str.drop (String.length old) (String c s))).
    simpl. now apply prefix_drop.
  - rewrite IH; [reflexivity|].
    intros a b E. apply (H (String c a) b). simpl. now rewrite E.
Qed.

End ReplaceFacts.

Section FormatterClaims.

Context {PF : PyRuntime} {PC : PyContainers}.

Lemma answer_lines_records (recs : list (string * Question * string)) :
  answer_lines (map record_of recs) = Some (map line_of recs).
Proof.
  induction recs as [|[[k q] v] recs IH]; [reflexivity|].
  cbn [map answer_lines record_of line_of].
  now rewrite IH, answer_line_record.
Qed.

(** C4 (as the code has it).  The answers are records the engine built.
    Rendering replaces every occurrence of the placeholder, from left to
    right, by the lines of the records joined with newlines: one line per
    record, in the order of the records, each made of the record's label,
    ": " and its value, the label being the question title, or the
    question id when the title is empty, or "Вопрос" when both are.  A
    template in which the placeholder does not occur is returned as it
    is. *)
Theorem finish_text_rendering (template : string)
    (recs : list (string * Question * string)) :
  render_final template (map record_of recs)
  = Some (Str.replace placeholder (Str.join newline (map line_of recs))
            template)
  /\ length (map line_of recs) = length recs
  /\ (forall k q v,
        line_of (k, q, v)
        = (if Str.nonempty (q_title q) then q_title q
           else if Str.nonempty k then k else "Вопрос") ++ ": " ++ v)
  /\ ((forall a b, template <> a ++ placeholder ++ b) ->
      render_final template (map record_of recs) = Some template)
  /\ (forall pre post,
        Str.split_first placeholder template = Some (pre, post) ->
        template = pre ++ placeholder ++ post
        /\ render_final template (map record_of recs)
           = Some (pre ++ Str.join newline (map line_of recs)
                   ++ Str.replace placeholder
                        (Str.join newline (map line_of recs)) post)).
Proof.
  assert (Hr : render_final template (map record_of recs)
               = Some (Str.replace placeholder
                         (Str.join newline (map line_of recs)) template)).
  { unfold render_final, _answers_to_text. now rewrite answer_lines_records. }
  split; [exact Hr|]. split; [apply length_map|]. split; [reflexivity|].
  rewrite Hr. split.
  - intros Habs. f_equal. apply replace_absent. now apply split_first_absent.
  - intros pre post Hsp.
    edestruct replace_first as [H1 H2]; [|exact Hsp|].
    + unfold placeholder. discriminate.
    + split; [exact H1 | now rewrite H2].
Qed.

End FormatterClaims.

(* ------------------------------------------------------------------ *)
(** ** Further properties of the code *)

(** *** Strings, [_safe_str] and [_slugify] *)

Lemma lstrip_step (s : string) :
  Str.lstrip s = match Str.space_width s with
                 | O => s
                 | n => Str.lstrip (Str.drop n s)
                 end.
Proof.
  destruct s as [|a s1]; [reflexivity|].
  cbn [Str.lstrip Str.space_width].
  destruct (Str.is_space1 a); [reflexivity|].
  destruct s1 as [|b s2]; [reflexivity|].
  destruct (Str.is_space2 a b); [reflexivity|].
  destruct s2 as [|c s3]; [reflexivity|].
  destruct (Str.is_space3 a b c); reflexivity.
Qed.

Lemma space_width_le (s : string) : (Str.space_width s <= String.length s)%nat.
Proof.
  destruct s as [|a [|b [|c s]]]; cbn [Str.space_width String.length];
    repeat match goal with |- context [if ?b then _ else _] => destruct b end;
    lia.
Qed.

Lemma length_drop (n : nat) (s : string) :
  String.length (Str.drop n s) = (String.length s - n)%nat.
Proof.
  revert s; induction n as [|n IH]; intros [|c s]; cbn; auto. 
Qed.

Lemma string_length_ind (P : string -> Prop) :
  (forall s, (forall t, (String.length t < String.length s)%nat -> P t) -> P s) ->
  forall s, P s.
Proof.
  intros H s.
  assert (G : forall n t, (String.length t < n)%nat -> P t).
  { induction n as [|n IH]; intros t Ht; [lia|].
    apply H. intros u Hu. apply IH. lia. }
  apply (G (S (String.length s))). lia.
Qed.

Lemma lstrip_clean (s : string) : starts_clean (Str.lstrip s).
Proof.
  induction s as [s IH] using string_length_ind.
  rewrite lstrip_step. destruct (Str.space_width s) as [|n] eqn:E; [exact E|].
  apply IH. rewrite length_drop. pose proof (space_width_le s). lia.
Qed.

Lemma lstrip_of_clean (s : string) : starts_clean s -> Str.lstrip s = s.
Proof. intros H. rewrite lstrip_step. unfold starts_clean in H. now rewrite H. Qed.

Lemma space_width_app_clean (x y : string) :
  starts_clean (x ++ y) -> starts_clean x.
Proof.
  unfold starts_clean.
  destruct x as [|a x]; [reflexivity|].
  cbn [Str.space_width String.append].
  destruct (Str.is_space1 a); [auto|].
  destruct x as [|b x]; [reflexivity|]. cbn [String.append].
  destruct (Str.is_space2 a b); [auto|].
  destruct x as [|c x]; [reflexivity|]. cbn [String.append]. auto.
Qed.

Lemma space_width_app (x y : string) :
  Str.space_width x <> 0%nat -> Str.space_width (x ++ y) = Str.space_width x.
Proof.
  destruct x as [|a x]; [intros H; now elim H|].
  cbn [Str.space_width String.append].
  destruct (Str.is_space1 a); [reflexivity|].
  destruct x as [|b x]; [intros H; now elim H|]. cbn [String.append].
  destruct (Str.is_space2 a b); [reflexivity|].
  destruct x as [|c x]; [intros H; now elim H|]. reflexivity.
Qed.

Lemma drop_app (n : nat) (x y : string) :
  (n <= String.length x)%nat -> Str.drop n (x ++ y) = Str.drop n x ++ y.
Proof.
  revert x; induction n as [|n IH]; intros [|c x] H; cbn in *; auto; try lia.
  apply IH; lia.
Qed.

Lemma lstrip_app_blank (x w : string) :
  Str.is_blank x = true -> Str.lstrip (x ++ w) = Str.lstrip w.
Proof.
  unfold Str.is_blank.
  induction x as [x IH] using string_length_ind. intros H.
  rewrite (lstrip_step x) in H.
  destruct (Str.space_width x) as [|n] eqn:E.
  - destruct x; [reflexivity | discriminate].
  - assert (Hn : Str.space_width x <> 0%nat) by lia.
    pose proof (space_width_le x) as Hle.
    rewrite lstrip_step, (@space_width_app x w Hn), E.
    rewrite drop_app by lia.
    apply IH; [rewrite length_drop; lia | exact H].
Qed.

Lemma is_blank_app (x w : string) :
  Str.is_blank x = true -> Str.is_blank w = true -> Str.is_blank (x ++ w) = true.
Proof.
  intros Hx Hw. unfold Str.is_blank. rewrite (@lstrip_app_blank x w Hx). exact Hw.
Qed.

Lemma rstrip_split (s : string) :
  exists w, s = Str.rstrip s ++ w /\ Str.is_blank w = true.
Proof.
  induction s as [|c s [w [E B]]].
  - exists EmptyString. split; reflexivity.
  - cbn [Str.rstrip]. destruct (Str.is_blank (String c s)) eqn:Hb.
    + exists (String c s). split; [reflexivity | exact Hb].
    + exists w. split; [cbn [String.append]; congruence | exact B].
Qed.

Lemma rstrip_idem (s : string) : Str.rstrip (Str.rstrip s) = Str.rstrip s.
Proof.
  induction s as [|c s IH]; [reflexivity|].
  cbn [Str.rstrip]. destruct (Str.is_blank (String c s)) eqn:Hb; [reflexivity|].
  cbn [Str.rstrip]. rewrite IH.
  destruct (Str.is_blank (String c (Str.rstrip s))) eqn:Hb'; [|reflexivity].
  destruct (rstrip_split s) as [w [E B]].
  pose proof (@is_blank_app _ _ Hb' B) as H. cbn [String.append] in H.
  rewrite <- E in H. congruence.
Qed.

Lemma rstrip_clean (s : string) : starts_clean s -> starts_clean (Str.rstrip s).
Proof.
  intros H. destruct (rstrip_split s) as [w [E B]].
  rewrite E in H. exact (@space_width_app_clean _ _ H).
Qed.

Lemma strip_clean (s : string) :
  Str.lstrip (Str.strip s) = Str.strip s /\ Str.rstrip (Str.strip s) = Str.strip s.
Proof.
  unfold Str.strip. split.
  - apply lstrip_of_clean, rstrip_clean, lstrip_clean.
  - apply rstrip_idem.
Qed.

Lemma strip_idem (s : string) : Str.strip (Str.strip s) = Str.strip s.
Proof.
  destruct (strip_clean s) as [L R]. unfold Str.strip at 1. now rewrite L, R.
Qed.

Section StringProperties.

Context {PF : PyRuntime} {PC : PyContainers}.

(** X1.  Whatever the cell or the JSON value, the text [_safe_str]
    returns has no whitespace at either end: stripping it again, on the
    left, on the right or on both sides, changes nothing. *)
Theorem safe_str_is_stripped (v : pyval) :
  Str.lstrip (_safe_str v) = _safe_str v
  /\ Str.rstrip (_safe_str v) = _safe_str v
  /\ Str.strip (_safe_str v) = _safe_str v.
Proof.
  assert (H : _safe_str v = EmptyString
              \/ _safe_str v = Str.strip (py_str v)).
  { unfold _safe_str. destruct v; auto; destruct (pd_isna _); auto. }
  destruct H as [-> | ->]; [repeat split|].
  destruct (strip_clean (py_str v)). repeat split; auto using strip_idem.
Qed.

End StringProperties.

Lemma keep_slug_chars_all (s : string) :
  Str.all slug_char (keep_slug_chars s) = true.
Proof.
  induction s as [|c s IH]; simpl; [reflexivity|].
  destruct (slug_char c) eqn:E; simpl; [now rewrite E|exact IH].
Qed.

Lemma slugify_safe (name : string) :
  _slugify name <> EmptyString
  /\ Str.all slug_char (_slugify name) = true.
Proof.
  unfold _slugify, or_default.
  destruct (Str.nonempty (keep_slug_chars _)) eqn:E.
  - split; [now apply nonempty_true | apply keep_slug_chars_all].
  - split; [discriminate | reflexivity].
Qed.

(** X2.  The key [_slugify] derives from a file name is never empty and
    holds only the characters A-Z, a-z, 0-9, "_" and "-"; a name that
    leaves no such character gives "survey". *)
Theorem slugify_is_safe (name : string) :
  _slugify name <> EmptyString
  /\ Str.all slug_char (_slugify name) = true
  /\ (keep_slug_chars (collapse_spaces false (splitext_root (basename name)))
      = EmptyString -> _slugify name = "survey").
Proof.
  destruct (slugify_safe name) as [H1 H2]. repeat split; auto.
  unfold _slugify. now intros ->.
Qed.

(** Paths. *)
Lemma after_last_append (sep : ascii) (a b t : string) :
  after_last sep b = Some t -> after_last sep (a ++ b) = Some t.
Proof.
  intros H. induction a as [|c a IH]; simpl; [exact H | now rewrite IH].
Qed.

Lemma append_empty_r (a : string) : a ++ EmptyString = a.
Proof. induction a as [|c a IH]; simpl; [reflexivity | now rewrite IH]. Qed.

Lemma append_assoc (a b c : string) : (a ++ b) ++ c = a ++ (b ++ c).
Proof. induction a as [|x a IH]; simpl; [reflexivity | now rewrite IH]. Qed.

Lemma rev_append (a b : string) : Str.rev (a ++ b) = Str.rev b ++ Str.rev a.
Proof.
  induction a as [|c a IH]; simpl.
  - now rewrite append_empty_r.
  - now rewrite IH, append_assoc.
Qed.

Lemma rev_involutive (s : string) : Str.rev (Str.rev s) = s.
Proof.
  induction s as [|c s IH]; simpl; [reflexivity|].
  rewrite rev_append. simpl. now rewrite IH.
Qed.

Lemma endswith_slash (d : string) :
  Str.endswith d "/" = true -> exists d', d = d' ++ "/".
Proof.
  unfold Str.endswith. simpl Str.rev. intros H.
  apply prefix_drop' in H. simpl in H.
  exists (Str.rev (Str.drop 1 (Str.rev d))).
  rewrite <- (rev_involutive d) at 1. rewrite H at 1. simpl.
  reflexivity.
Qed.

(** X3.  The key of a file does not depend on the directory it is read
    from: for a name without "/", as [os.listdir] gives them, [_slugify]
    of the joined path is [_slugify] of the name. *)
Theorem slugify_ignores_directory (data_dir name : string) :
  after_last slash name = None ->
  basename (path_join data_dir name) = name
  /\ _slugify (path_join data_dir name) = _slugify name.
Proof.
  intros Hn.
  assert (Hb : basename name = name) by (unfold basename; now rewrite Hn).
  assert (H : basename (path_join data_dir name) = name).
  { unfold path_join.
    destruct (Str.startswith name "/") eqn:Es.
    { exact Hb. }
    assert (Hs : forall d, after_last slash (d ++ "/" ++ name) = Some name).
    { intros d. apply after_last_append. simpl. now rewrite Hn. }
    destruct (Str.nonempty data_dir) eqn:Ed; simpl negb; simpl orb.
    - destruct (Str.endswith data_dir "/") eqn:Ee.
      + destruct (endswith_slash _ Ee) as [d' ->].
        unfold basename. now rewrite append_assoc, Hs.
      + unfold basename. now rewrite Hs.
    - apply nonempty_false in Ed. subst. exact Hb. }
  split; [exact H|]. unfold _slugify. now rewrite H, Hb.
Qed.

(** *** The parser: errors and what a row contributes *)

Lemma mem_In (x : string) (l : list string) : Str.mem x l = true <-> In x l.
Proof.
  unfold Str.mem. rewrite existsb_exists. split.
  - intros (y & Hy & He). apply String.eqb_eq in He. now subst.
  - intros Hx. exists x. split; [exact Hx | apply String.eqb_refl].
Qed.

Lemma in_answer_slots (i : Z) : In i answer_slots <-> 1 <= i <= 10.
Proof. unfold answer_slots. simpl. lia. Qed.

Section ParserProperties.

Context {PF : PyRuntime} {PC : PyContainers}.

(** X4.  A sheet that lacks a required column (the header names being
    stripped first) is refused before any row is looked at: the parser
    raises the [ValueError] that lists the missing columns, which are the
    required names that are no column of the sheet. *)
Theorem missing_columns_are_reported (path : string) (df : DataFrame)
    (c : string) :
  In c required ->
  ~ In c (stripped_columns df) ->
  exists missing,
    load_survey_from_excel path (Some df)
    = Raise (ValueError (basename path) (MissingColumns missing))
    /\ In c missing
    /\ forall x, In x missing
                 <-> In x required /\ ~ In x (stripped_columns df).
Proof.
  intros Hc Hn.
  assert (Hm : forall x,
             In x (filter (fun c => negb (Str.mem c (stripped_columns df)))
                     required)
             <-> In x required /\ ~ In x (stripped_columns df)).
  { intros x. rewrite filter_In, negb_true_iff, <- not_true_iff_false, mem_In.
    tauto. }
  exists (filter (fun c => negb (Str.mem c (stripped_columns df))) required).
  split; [|split; [apply Hm; auto | exact Hm]].
  unfold load_survey_from_excel.
  destruct (filter _ required) as [|x l] eqn:E; [|reflexivity].
  exfalso. apply (proj2 (Hm c)). auto.
Qed.

(** X5.  The question rows are read in order and the first invalid one
    ends the parse: with the required columns and a survey row present,
    the parser raises the [ValueError] of the first question row that is
    invalid, whatever comes after it. *)
Theorem first_invalid_row_aborts (path : string) (df : DataFrame)
    (m : Series) (ms pre : list Series) (r : Series) (post : list Series)
    (d : defect) :
  filter (fun c => negb (Str.mem c (stripped_columns df))) required = [] ->
  filter (is_row "survey") (iterrows df) = m :: ms ->
  filter (is_row "question") (iterrows df) = (pre ++ r :: post)%list ->
  (forall r' d', In r' pre -> question_of_row r' <> Invalid d') ->
  question_of_row r = Invalid d ->
  load_survey_from_excel path (Some df)
  = Raise (ValueError (basename path) d).
Proof.
  intros Hc Hm Hq Hpre Hr. unfold load_survey_from_excel.
  rewrite Hc, Hm, Hq. cbn [is_nil negb].
  rewrite question_loop_app.
  destruct (question_loop_total (basename path) pre [] Hpre) as [mid ->].
  cbn [question_loop]. now rewrite Hr.
Qed.

(** X6.  When a row is invalid.  A question row with an id is refused
    with [InvalidType] exactly when its type, stripped and lowered, is
    none of single, multi, text and number, and with [NoAnswers] exactly
    when the type is single or multi and none of Answer1..Answer10 holds
    a text; a row without id is never refused. *)
Theorem invalid_rows (r : Series) (d : defect) :
  question_of_row r = Invalid d
  <-> row_qid r <> EmptyString
      /\ ((~ In (_norm (_safe_str (get r COL_TYPE)))
               ["single"; "multi"; "text"; "number"]
           /\ d = InvalidType (row_qid r) (_norm (_safe_str (get r COL_TYPE))))
          \/ (In (_norm (_safe_str (get r COL_TYPE))) ["single"; "multi"]
              /\ gather_options r = []
              /\ d = NoAnswers (row_qid r))).
Proof.
  unfold question_of_row, row_qid.
  destruct (Str.nonempty (_safe_str (get r COL_QID))) eqn:Eq; cbn [negb].
  2:{ apply nonempty_false in Eq. rewrite Eq. split; [discriminate|].
      intros [H _]. now destruct H. }
  apply nonempty_true in Eq.
  destruct (Str.mem (_norm (_safe_str (get r COL_TYPE)))
              ["single"; "multi"; "text"; "number"]) eqn:Et; cbn [negb].
  - apply mem_In in Et.
    destruct (Str.mem (_norm (_safe_str (get r COL_TYPE)))
                ["single"; "multi"]) eqn:Es; cbn [andb].
    + apply mem_In in Es.
      destruct (gather_options r) eqn:Eo; cbn [is_nil].
      * split.
        -- intros [= <-]. split; [exact Eq|]. right. auto.
        -- intros [_ [[H _]|(_ & _ & ->)]]; [contradiction | reflexivity].
      * split; [discriminate|].
        intros [_ [[H _]|(_ & H & _)]]; [contradiction | discriminate].
    + split; [discriminate|].
      intros [_ [[H _]|(H & _)]]; [contradiction|].
      apply mem_In in H. congruence.
  - split.
    + intros [= <-]. split; [exact Eq|]. left. split; [|reflexivity].
      intros H. apply mem_In in H. congruence.
    + intros [_ [[_ ->]|(H & _)]]; [reflexivity|].
      exfalso. assert (Str.mem (_norm (_safe_str (get r COL_TYPE)))
                         ["single"; "multi"; "text"; "number"] = true).
      { apply mem_In. simpl in H |- *. tauto. }
      congruence.
Qed.

Lemma in_gather_options (r : Series) (o : Option) :
  In o (gather_options r)
  <-> 1 <= idx o <= 10
      /\ text o = _safe_str (get r ("Answer" ++ Str.of_Z (idx o)))
      /\ text o <> EmptyString
      /\ next_qid o
         = or_none (_safe_str (get r ("NextIfAnswer" ++ Str.of_Z (idx o)))).
Proof.
  unfold gather_options. rewrite in_flat_map. split.
  - intros (i & Hi & Ho). apply in_answer_slots in Hi.
    unfold option_of_slot in Ho.
    destruct (Str.nonempty _) eqn:E; [|destruct Ho].
    destruct Ho as [<-|[]]. simpl. apply nonempty_true in E. auto.
  - intros (Hi & Ht & Hne & Hn). exists (idx o). split.
    + now apply in_answer_slots.
    + unfold option_of_slot. rewrite <- Ht.
      apply nonempty_true in Hne. rewrite Hne. left.
      destruct o as [i t n]. simpl in *. now rewrite Hn.
Qed.

(** X7.  What the answer slots contribute.  Slot [i] of 1..10 gives an
    option exactly when the cell Answer[i] holds a text once stripped;
    the option has the index [i], that text, and the stripped cell
    NextIfAnswer[i] as next id, or none when that cell is empty.  No
    other option is gathered. *)
Theorem gathered_options (r : Series) (o : Option) :
  In o (gather_options r)
  <-> 1 <= idx o <= 10
      /\ text o = _safe_str (get r ("Answer" ++ Str.of_Z (idx o)))
      /\ text o <> EmptyString
      /\ next_qid o
         = or_none (_safe_str (get r ("NextIfAnswer" ++ Str.of_Z (idx o)))).
Proof. apply in_gather_options. Qed.

End ParserProperties.

(** *** The parser: which rows count, and the metadata *)

Section RowProperties.

Context {PF : PyRuntime} {PC : PyContainers}.

(** Of the survey rows only the first one is read. *)
Lemma load_survey_ext_first (path : string) (df df' : DataFrame) :
  stripped_columns df = stripped_columns df' ->
  hd_error (filter (is_row "survey") (iterrows df))
  = hd_error (filter (is_row "survey") (iterrows df')) ->
  question_loop (basename path) (filter (is_row "question") (iterrows df)) []
  = question_loop (basename path)
      (filter (is_row "question") (iterrows df')) [] ->
  load_survey_from_excel path (Some df) = load_survey_from_excel path (Some df').
Proof.
  intros Hc Hs Hq. unfold load_survey_from_excel. rewrite Hc, Hq.
  destruct (filter (is_row "survey") (iterrows df)) as [|m ms],
           (filter (is_row "survey") (iterrows df')) as [|m' ms'];
    try discriminate; [reflexivity|].
  injection Hs as <-. reflexivity.
Qed.

Lemma is_row_exclusive (r : Series) :
  is_row "survey" r = true -> is_row "question" r = false.
Proof. unfold is_row. intros H. apply String.eqb_eq in H. now rewrite H. Qed.

(** X8.  Only the first survey row counts: a further survey row, anywhere
    after it, changes nothing in what the parser returns. *)
Theorem later_survey_rows_are_ignored (path : string) (cols : list string)
    (rows1 : list (list pyval)) (cells : list pyval)
    (rows2 : list (list pyval)) :
  filter (is_row "survey") (iterrows (mkDataFrame cols rows1)) <> [] ->
  is_row "survey" (combine (map Str.strip cols) cells) = true ->
  load_survey_from_excel path
    (Some (mkDataFrame cols (rows1 ++ cells :: rows2)))
  = load_survey_from_excel path (Some (mkDataFrame cols (rows1 ++ rows2))).
Proof.
  intros H1 Hs. pose proof (is_row_exclusive _ Hs) as Hq.
  apply load_survey_ext_first; unfold iterrows, stripped_columns in *;
    cbn [columns rows] in *; [reflexivity | |];
    rewrite !map_app, !filter_app; cbn [map filter].
  - destruct (filter (is_row "survey") (map _ rows1)); [now destruct H1|].
    reflexivity.
  - now rewrite Hq.
Qed.

(** X9.  A row whose RowType, lowered and stripped, is neither "survey"
    nor "question" (a blank one, say) is not read at all: with or without
    it the parser returns the same. *)
Theorem other_rows_are_ignored (path : string) (cols : list string)
    (rows1 : list (list pyval)) (cells : list pyval)
    (rows2 : list (list pyval)) :
  is_row "survey" (combine (map Str.strip cols) cells) = false ->
  is_row "question" (combine (map Str.strip cols) cells) = false ->
  load_survey_from_excel path
    (Some (mkDataFrame cols (rows1 ++ cells :: rows2)))
  = load_survey_from_excel path (Some (mkDataFrame cols (rows1 ++ rows2))).
Proof.
  intros Hs Hq.
  apply load_survey_ext; unfold iterrows, stripped_columns;
    cbn [columns rows]; [reflexivity | |];
    rewrite !map_app, !filter_app; cbn [map filter].
  - now rewrite Hs.
  - now rewrite Hq.
Qed.

(** X10.  The metadata of a parsed survey.  The key is the slug of the
    path and the file name its base name; title, description, finish
    title and finish text are the stripped cells of the first survey row,
    an empty title giving way to the key and an empty finish title or
    finish text to the fixed texts; so key, title, finish title and finish
    text are never empty. *)
Theorem survey_metadata (path : string) (sheet : option DataFrame)
    (s : Survey) :
  load_survey_from_excel path sheet = Ok s ->
  exists df m,
    sheet = Some df
    /\ hd_error (filter (is_row "survey") (iterrows df)) = Some m
    /\ key s = _slugify path
    /\ file_name s = basename path
    /\ title s = or_default (_safe_str (get m COL_SURVEY_TITLE)) (_slugify path)
    /\ description s = _safe_str (get m COL_SURVEY_DESC)
    /\ final_title s = or_default (_safe_str (get m COL_FINAL_TITLE)) "Готово"
    /\ final_text s
       = or_default (_safe_str (get m COL_FINAL_TEXT))
           ("Спасибо! Ваши ответы:" ++ newline ++ "{answers}")
    /\ key s <> EmptyString /\ title s <> EmptyString
    /\ final_title s <> EmptyString /\ final_text s <> EmptyString.
Proof.
  unfold load_survey_from_excel. destruct sheet as [df|]; [|discriminate].
  destruct (negb _); [discriminate|].
  destruct (filter (is_row "survey") (iterrows df)) as [|m ms] eqn:Em;
    [discriminate|].
  destruct (question_loop _ _ _) as [qs|]; [|discriminate].
  destruct qs as [|[first v] rest]; [discriminate|].
  intros [= <-]. exists df, m. rewrite Em.
  cbn [key file_name title description final_title final_text hd_error].
  assert (Hk : _slugify path <> EmptyString) by apply slugify_safe.
  assert (Hd : forall a b, b <> EmptyString -> or_default a b <> EmptyString).
  { intros a b Hb. unfold or_default. destruct (Str.nonempty a) eqn:E;
      [now apply nonempty_true | exact Hb]. }
  repeat split; auto; apply Hd; discriminate.
Qed.

End RowProperties.

(** *** When a sheet is accepted *)

Section Acceptance.

Context {PF : PyRuntime} {PC : PyContainers}.

Lemma question_loop_ok_valid (file : string) (qrows : list Series)
    (acc qs : dict Question) :
  question_loop file qrows acc = Ok qs ->
  forall r d, In r qrows -> question_of_row r <> Invalid d.
Proof.
  revert acc. induction qrows as [|r0 qrows IH]; intros acc Hl r d;
    [intros []|].
  simpl in Hl. intros [<-|Hr].
  - destruct (question_of_row r0); try discriminate.
  - destruct (question_of_row r0); try discriminate; eauto.
Qed.

(** X28.  When the parser accepts a sheet.  It returns a survey exactly
    when all required columns are present, there is a survey row, no
    question row is invalid, and at least one question row has an id;
    otherwise it raises. *)
Theorem sheet_is_accepted (path : string) (df : DataFrame) :
  (exists s, load_survey_from_excel path (Some df) = Ok s)
  <-> (forall c, In c required -> In c (stripped_columns df))
      /\ (exists m, In m (iterrows df) /\ is_row "survey" m = true)
      /\ (forall r d, In r (iterrows df) -> is_row "question" r = true ->
                      question_of_row r <> Invalid d)
      /\ (exists r, In r (iterrows df) /\ is_row "question" r = true
                    /\ row_qid r <> EmptyString).
Proof.
  assert (Hcols : (forall c, In c required -> In c (stripped_columns df))
                  <-> filter (fun c => negb (Str.mem c (stripped_columns df)))
                        required = []).
  { split.
    - intros H. apply filter_all_false. intros c Hc.
      apply negb_false_iff, mem_In, H, Hc.
    - intros H c Hc. apply mem_In.
      destruct (Str.mem c (stripped_columns df)) eqn:E; [reflexivity|].
      assert (Hin : In c (filter (fun c => negb (Str.mem c (stripped_columns df)))
                            required)).
      { apply filter_In. split; [exact Hc | now rewrite E]. }
      rewrite H in Hin. destruct Hin. }
  split.
  - intros [s Hl]. unfold load_survey_from_excel in Hl.
    destruct (filter _ required) eqn:Ec; cbn [is_nil negb] in Hl;
      [|discriminate].
    destruct (filter (is_row "survey") (iterrows df)) as [|m ms] eqn:Em;
      [discriminate|].
    destruct (question_loop _ _ _) as [qs|] eqn:El; [|discriminate].
    destruct qs as [|[first v] rest]; [discriminate|].
    split; [now apply Hcols|]. split.
    + exists m. apply filter_In. rewrite Em. now left.
    + split.
      * intros r d Hr Hq. eapply question_loop_ok_valid; [exact El|].
        apply filter_In. auto.
      * pose proof (question_loop_first _ _ _ El) as Hf. cbv beta iota in Hf.
        destruct (find _ _) as [r|] eqn:Efind; [|discriminate].
        apply find_some in Efind. destruct Efind as [Hin Hne].
        apply filter_In in Hin. exists r.
        repeat split; try tauto. now apply nonempty_true.
  - intros (Hc & (m & Hm & Hsm) & Hvalid & (r & Hr & Hrq & Hne)).
    unfold load_survey_from_excel.
    rewrite (proj1 Hcols Hc). cbn [is_nil negb].
    destruct (filter (is_row "survey") (iterrows df)) as [|m0 ms] eqn:Em.
    { assert (Hin : In m (filter (is_row "survey") (iterrows df)))
        by (apply filter_In; auto).
      rewrite Em in Hin. destruct Hin. }
    destruct (question_loop_total (basename path)
                (filter (is_row "question") (iterrows df)) [])
      as [qs Hqs].
    { intros r' d Hr'. apply filter_In in Hr'. now apply Hvalid. }
    rewrite Hqs.
    pose proof (question_loop_first _ _ _ Hqs) as Hf. cbv beta iota in Hf.
    destruct (find _ _) as [r0|] eqn:Efind.
    + destruct Hf as (v & rest & ->). eauto.
    + exfalso.
      assert (Hin : In r (filter (is_row "question") (iterrows df)))
        by (apply filter_In; auto).
      pose proof (find_none _ _ Efind r Hin) as Hn. cbv beta in Hn.
      apply nonempty_false in Hn. contradiction.
Qed.

End Acceptance.

(** *** The registry *)

Lemma all_append (f : ascii -> bool) (a b : string) :
  Str.all f (a ++ b) = Str.all f a && Str.all f b.
Proof.
  induction a as [|c a IH]; simpl; [reflexivity|].
  now rewrite IH, andb_assoc.
Qed.

Lemma all_impl (f g : ascii -> bool) (s : string) :
  (forall c, f c = true -> g c = true) ->
  Str.all f s = true -> Str.all g s = true.
Proof.
  intros Hfg. induction s as [|c s IH]; simpl; [reflexivity|].
  intros H. apply andb_true_iff in H. destruct H as [H1 H2].
  now rewrite (Hfg c H1), IH.
Qed.

Lemma uint_digits (d : Decimal.uint) :
  Str.all Str.is_digit (NilEmpty.string_of_uint d) = true.
Proof. induction d; simpl; auto. Qed.

(** [str(n)] of a natural number is made of digits. *)
Lemma of_Z_digits (z : Z) :
  0 <= z -> Str.all Str.is_digit (Str.of_Z z) = true.
Proof.
  intros Hz. unfold Str.of_Z. destruct z as [|p|p]; [reflexivity | | lia].
  simpl. unfold NilZero.string_of_uint.
  destruct (Pos.to_uint p) eqn:E; try (rewrite <- E; apply uint_digits).
  reflexivity.
Qed.

Section RegistryProperties.

Context {PF : PyRuntime} {PC : PyContainers}.

Lemma discover_app (data_dir : string)
    (pre post : list (string * option DataFrame)) (acc : dict Survey) :
  discover data_dir (pre ++ post) acc =
  match discover data_dir pre acc with
  | Ok mid => discover data_dir post mid
  | Raise e => Raise e
  end.
Proof.
  revert acc. induction pre as [|[name sheet] pre IH]; intros acc; simpl;
    [reflexivity|].
  destruct (negb _); [apply IH|].
  destruct (Str.startswith name "~$"); [apply IH|].
  destruct (load_survey_from_excel _ sheet); [apply IH | reflexivity].
Qed.

Lemma discover_eligible (data_dir : string)
    (entries : list (string * option DataFrame)) (acc : dict Survey) :
  discover data_dir entries acc
  = discover data_dir (filter (fun e => eligible (fst e)) entries) acc.
Proof.
  revert acc. induction entries as [|[name sheet] rest IH]; intros acc;
    [reflexivity|].
  cbn [discover filter fst].
  assert (He : eligible name
               = Str.endswith (str_lower name) ".xlsx"
                 && negb (Str.startswith name "~$")) by reflexivity.
  destruct (Str.endswith (str_lower name) ".xlsx") eqn:E1,
           (Str.startswith name "~$") eqn:E2;
    rewrite He; cbn [negb andb]; try apply IH.
  cbn [discover]. rewrite E1, E2. cbn [negb].
  destruct (load_survey_from_excel _ sheet); [apply IH | reflexivity].
Qed.

(** X11.  Discovery reads the files whose name ends in ".xlsx", in any
    letter case, and does not start with "~$", and no other: the entries
    left out change nothing, readable or not; and a path that is no
    directory gives the empty registry. *)
Theorem only_eligible_files_are_read (data_dir : string)
    (entries : list (string * option DataFrame)) :
  load_all_surveys data_dir (Some entries)
  = load_all_surveys data_dir
      (Some (filter (fun e => eligible (fst e)) entries))
  /\ load_all_surveys data_dir None = Ok [].
Proof. split; [apply discover_eligible | reflexivity]. Qed.

(** X12.  Discovery fails fast: the first file that cannot be parsed
    ends it with that file's exception, and no registry is returned,
    whatever the files before it gave and whatever comes after. *)
Theorem discovery_fails_fast (data_dir : string)
    (pre : list (string * option DataFrame)) (name : string)
    (sheet : option DataFrame) (post : list (string * option DataFrame))
    (mid : dict Survey) (e : exn) :
  load_all_surveys data_dir (Some pre) = Ok mid ->
  eligible name = true ->
  load_survey_from_excel (path_join data_dir name) sheet = Raise e ->
  load_all_surveys data_dir (Some (pre ++ (name, sheet) :: post)%list)
  = Raise e.
Proof.
  unfold load_all_surveys, eligible. intros Hpre He Hl.
  apply andb_true_iff in He. destruct He as [H1 H2].
  apply negb_true_iff in H2.
  rewrite discover_app, Hpre. cbn [discover]. now rewrite H1, H2, Hl.
Qed.

(** What holds of every entry of the registry, when it holds of a parsed
    survey under its key and is kept by the renaming of a collision. *)
Lemma discover_invariant (P : string -> Survey -> Prop) (data_dir : string)
    (entries : list (string * option DataFrame)) (acc reg : dict Survey) :
  (forall path sheet s, load_survey_from_excel path sheet = Ok s ->
                        P (key s) s) ->
  (forall s surveys, P (key s) s ->
                     P (suffixed_key surveys (key s))
                       (with_key s (suffixed_key surveys (key s)))) ->
  (forall k s, dict_get k acc = Some s -> P k s) ->
  discover data_dir entries acc = Ok reg ->
  forall k s, dict_get k reg = Some s -> P k s.
Proof.
  intros Hload Hren. revert acc.
  induction entries as [|[name sheet] rest IH]; intros acc Hacc; simpl.
  - now intros [= <-].
  - destruct (negb _); [now apply IH|].
    destruct (Str.startswith name "~$"); [now apply IH|].
    destruct (load_survey_from_excel _ sheet) as [s0|] eqn:El; [|discriminate].
    apply IH. intros k s. unfold register.
    destruct (dict_mem (key s0) acc); intros Hs;
      apply dict_get_set_inv in Hs; destruct Hs as [[<- ->]|Hs]; eauto.
    cbn [with_key key]. eauto.
Qed.

Lemma discover_NoDup (data_dir : string)
    (entries : list (string * option DataFrame)) (acc reg : dict Survey) :
  NoDup (dict_keys acc) ->
  discover data_dir entries acc = Ok reg -> NoDup (dict_keys reg).
Proof.
  revert acc. induction entries as [|[name sheet] rest IH]; intros acc Hacc;
    simpl.
  - now intros [= <-].
  - destruct (negb _); [now apply IH|].
    destruct (Str.startswith name "~$"); [now apply IH|].
    destruct (load_survey_from_excel _ sheet) as [s0|]; [|discriminate].
    apply IH. unfold register. now apply dict_set_NoDup.
Qed.

Lemma suffixed_key_safe (surveys : dict Survey) (k : string) :
  Str.all slug_char k = true ->
  suffixed_key surveys k <> EmptyString
  /\ Str.all slug_char (suffixed_key surveys k) = true.
Proof.
  intros Hk. unfold suffixed_key. split.
  - intros H. apply (f_equal String.length) in H.
    rewrite !length_append in H. simpl in H. lia.
  - rewrite !all_append, Hk. simpl.
    apply (all_impl Str.is_digit).
    + intros c Hc. unfold slug_char. rewrite Hc.
      now rewrite !orb_true_r.
    + apply of_Z_digits. unfold dict_len. lia.
Qed.

(** X13.  The registry is keyed consistently: its keys are pairwise
    distinct, and every survey is stored under its own [key], which is
    not empty and holds only the characters A-Z, a-z, 0-9, "_" and "-",
    so that it can stand in a URL path. *)
Theorem registry_keys (data_dir : string)
    (listing : option (list (string * option DataFrame)))
    (SURVEYS : dict Survey) :
  load_all_surveys data_dir listing = Ok SURVEYS ->
  NoDup (dict_keys SURVEYS)
  /\ forall k s, get_survey_or_404 SURVEYS k = Some s ->
                 key s = k /\ k <> EmptyString
                 /\ Str.all slug_char k = true.
Proof.
  unfold load_all_surveys, get_survey_or_404.
  destruct listing as [entries|].
  2:{ intros [= <-]. split; [constructor | discriminate]. }
  intros Hd. split.
  - eapply discover_NoDup; [|exact Hd]. constructor.
  - apply (@discover_invariant
             (fun k s => key s = k /\ k <> EmptyString
                         /\ Str.all slug_char k = true)
             data_dir entries [] SURVEYS); [| | discriminate | exact Hd].
    + intros path sheet s Hl.
      destruct (load_survey_inv _ _ Hl) as (_ & _ & _ & _ & _ & _ & _ & _ & -> & _).
      split; [reflexivity | apply slugify_safe].
    + intros s surveys (_ & _ & Hk). cbn [with_key key].
      split; [reflexivity | now apply suffixed_key_safe].
Qed.

Lemma load_survey_start (path : string) (sheet : option DataFrame)
    (s : Survey) :
  load_survey_from_excel path sheet = Ok s ->
  dict_mem (start_qid s) (questions s) = true.
Proof.
  intros Hl.
  destruct (load_survey_inv _ _ Hl)
    as (df & m & ms & first & _ & _ & _ & Hf & _ & ->).
  assert (Hin : dict_mem first (questions s) = true).
  { apply dict_mem_keys. destruct (dict_keys (questions s)); [discriminate|].
    injection Hf as ->. now left. }
  destruct (Str.nonempty _); cbn [negb orb]; [|exact Hin].
  destruct (dict_mem (_safe_str _) (questions s)) eqn:E; cbn [negb];
    [exact E | exact Hin].
Qed.

(** X14.  Every survey the registry serves can be started: its
    [start_qid] is a key of its questions, also after the renaming of a
    key collision, so that the question endpoint finds the start
    question and answers with its body. *)
Theorem start_question_is_served (data_dir : string)
    (listing : option (list (string * option DataFrame)))
    (SURVEYS : dict Survey) (k : string) (s : Survey) :
  load_all_surveys data_dir listing = Ok SURVEYS ->
  get_survey_or_404 SURVEYS k = Some s ->
  exists q,
    dict_get (start_qid s) (questions s) = Some q
    /\ qid q = start_qid s
    /\ api_get_question s (start_qid s)
       = QuestionBody k (start_qid s) (qtype q) (q_title q) (q_text q)
           (long_text q) (hints q)
           (map (fun opt => (idx opt, text opt)) (options q)).
Proof.
  unfold load_all_surveys, get_survey_or_404.
  destruct listing as [entries|]; [|intros [= <-]; discriminate].
  intros Hd Hs.
  assert (Hinv : key s = k /\ dict_mem (start_qid s) (questions s) = true).
  { apply (@discover_invariant
             (fun k s => key s = k
                         /\ dict_mem (start_qid s) (questions s) = true)
             data_dir entries [] SURVEYS); [| | discriminate | exact Hd | exact Hs].
    - intros path sheet s0 Hl. split; [reflexivity|].
      eapply load_survey_start, Hl.
    - intros s0 surveys [_ H]. cbn [with_key key start_qid questions]. auto. }
  destruct Hinv as [Hk Hm].
  - assert (Hrows : from_rows s).
    { eapply discover_from_rows; [|exact Hd|exact Hs]. discriminate. }
    unfold dict_mem in Hm.
    destruct (dict_get (start_qid s) (questions s)) as [q|] eqn:Eq;
      [|discriminate].
    destruct (Hrows _ _ Eq) as (r & _ & Hq).
    exists q. split; [reflexivity|]. split; [exact Hq|].
    unfold api_get_question. now rewrite Eq, Hk, Hq.
Qed.

End RegistryProperties.

(** *** The questions the registry serves *)

Lemma or_none_not_empty (s : string) : or_none s <> Some EmptyString.
Proof.
  unfold or_none. destruct (Str.nonempty s) eqn:E; [|discriminate].
  intros [= ->]. discriminate.
Qed.

Lemma ascending_NoDup (opts : list Option) :
  ascending opts -> NoDup (map idx opts).
Proof.
  induction 1 as [|o opts Hs IH Ho]; simpl; constructor; [|exact IH].
  rewrite in_map_iff. intros (x & Hx & Hin).
  rewrite Forall_forall in Ho. specialize (Ho x Hin). lia.
Qed.

Lemma ascending_length (opts : list Option) (a : Z) :
  ascending opts ->
  (forall o, In o opts -> a <= idx o <= 10) ->
  Z.of_nat (length opts) <= Z.max 0 (11 - a).
Proof.
  intros Hs. revert a. induction Hs as [|o opts Hs IH Ho]; intros a Hb.
  - simpl. lia.
  - rewrite Forall_forall in Ho.
    assert (H1 : a <= idx o <= 10) by (apply Hb; now left).
    assert (H2 : Z.of_nat (length opts) <= Z.max 0 (11 - (idx o + 1))).
    { apply IH. intros x Hx. specialize (Ho x Hx).
      specialize (Hb x (or_intror Hx)). lia. }
    cbn [length]. lia.
Qed.

Section ServedQuestions.

Context {PF : PyRuntime} {PC : PyContainers}.

Lemma question_of_row_built_next (r : Series) (q : Question) :
  question_of_row r = Built q ->
  next_id q = or_none (_safe_str (get r COL_NEXTID))
  /\ (Str.mem (qtype q) ["single"; "multi"] = true -> options q <> []).
Proof.
  unfold question_of_row.
  destruct (Str.nonempty (_safe_str (get r COL_QID))); cbn [negb];
    [|discriminate].
  destruct (Str.mem (_norm (_safe_str (get r COL_TYPE)))
              ["single"; "multi"; "text"; "number"]); cbn [negb];
    [|discriminate].
  destruct (Str.mem (_norm (_safe_str (get r COL_TYPE)))
              ["single"; "multi"]) eqn:Es; cbn [andb].
  - destruct (gather_options r) eqn:Eo; cbn [is_nil]; [discriminate|].
    intros [= <-]. cbn [next_id options qtype].
    split; [reflexivity | discriminate].
  - intros [= <-]. cbn [next_id options qtype]. rewrite Es.
    split; [reflexivity | discriminate].
Qed.

Lemma served_from_rows (data_dir : string)
    (listing : option (list (string * option DataFrame)))
    (SURVEYS : dict Survey) (k : string) (s : Survey) (id : string)
    (q : Question) :
  load_all_surveys data_dir listing = Ok SURVEYS ->
  get_survey_or_404 SURVEYS k = Some s ->
  dict_get id (questions s) = Some q ->
  exists r, question_of_row r = Built q /\ qid q = id.
Proof.
  intros Hl Hs Hq.
  exact (load_all_surveys_from_rows _ _ _ Hl Hs _ Hq).
Qed.

(** X15.  Every question the registry serves is well formed: it is
    stored under its own id, which is not empty and has no whitespace at
    its ends; its type is one of single, multi, text and number, in
    lower case; a single or multi question has at least one option; and
    its next id is absent or not empty, never the empty text. *)
Theorem served_questions_are_well_formed (data_dir : string)
    (listing : option (list (string * option DataFrame)))
    (SURVEYS : dict Survey) (k : string) (s : Survey) (id : string)
    (q : Question) :
  load_all_surveys data_dir listing = Ok SURVEYS ->
  get_survey_or_404 SURVEYS k = Some s ->
  dict_get id (questions s) = Some q ->
  qid q = id /\ id <> EmptyString /\ Str.strip id = id
  /\ In (qtype q) ["single"; "multi"; "text"; "number"]
  /\ (In (qtype q) ["single"; "multi"] -> options q <> [])
  /\ next_id q <> Some EmptyString.
Proof.
  intros Hl Hs Hq.
  destruct (served_from_rows _ _ _ _ Hl Hs Hq) as (r & Hr & Hid).
  destruct (question_of_row_built _ Hr) as (Hrq & Hne & _ & Ht).
  destruct (question_of_row_built_next _ Hr) as (Hn & Ho).
  rewrite <- Hid. split; [reflexivity|].
  split; [now apply nonempty_true|]. split.
  - rewrite Hrq. unfold row_qid.
    assert (Hst : forall v, Str.strip (_safe_str v) = _safe_str v).
    { intros v. unfold _safe_str.
      destruct v; try reflexivity; destruct (pd_isna _); try reflexivity;
        apply strip_idem. }
    apply Hst.
  - split; [now apply mem_In|]. split.
    + intros H. apply Ho. now apply mem_In.
    + rewrite Hn. apply or_none_not_empty.
Qed.

(** X16.  The options of every question the registry serves: at most
    ten, in strictly ascending index order, so that no index occurs
    twice; every index lies between 1 and 10, every text is non-empty and
    stripped, and a next id is absent or not empty. *)
Theorem served_options_are_well_formed (data_dir : string)
    (listing : option (list (string * option DataFrame)))
    (SURVEYS : dict Survey) (k : string) (s : Survey) (id : string)
    (q : Question) :
  load_all_surveys data_dir listing = Ok SURVEYS ->
  get_survey_or_404 SURVEYS k = Some s ->
  dict_get id (questions s) = Some q ->
  ascending (options q)
  /\ NoDup (map idx (options q))
  /\ (length (options q) <= 10)%nat
  /\ forall o, In o (options q) ->
               1 <= idx o <= 10
               /\ text o <> EmptyString
               /\ Str.strip (text o) = text o
               /\ next_qid o <> Some EmptyString.
Proof.
  intros Hl Hs Hq.
  destruct (served_from_rows _ _ _ _ Hl Hs Hq) as (r & Hr & _).
  destruct (question_of_row_built _ Hr) as (_ & _ & -> & _).
  pose proof (gather_options_ascending r) as Ha.
  assert (Hall : forall o, In o (gather_options r) ->
                           1 <= idx o <= 10
                           /\ text o <> EmptyString
                           /\ Str.strip (text o) = text o
                           /\ next_qid o <> Some EmptyString).
  { intros o Ho. apply in_gather_options in Ho.
    destruct Ho as (Hi & Ht & Hne & Hn).
    split; [exact Hi|]. split; [exact Hne|]. split.
    - rewrite Ht. unfold _safe_str.
      destruct (get r _); try reflexivity; destruct (pd_isna _);
        try reflexivity; apply strip_idem.
    - rewrite Hn. apply or_none_not_empty. }
  split; [exact Ha|]. split; [now apply ascending_NoDup|].
  split; [|exact Hall].
  pose proof (ascending_length (a := 1) Ha
                (fun o Ho => proj1 (Hall o Ho))) as H.
  lia.
Qed.

End ServedQuestions.

(** *** The engine: what a response can be *)

Lemma target_some (nx : option string) (n : string) :
  target nx = Some n -> nx = Some n /\ n <> EmptyString.
Proof.
  unfold target. destruct nx as [m|]; [|discriminate].
  destruct (Str.nonempty m) eqn:E; [|discriminate].
  intros [= <-]. split; [reflexivity | now apply nonempty_true].
Qed.

Section EngineProperties.

Context {PF : PyRuntime} {PC : PyContainers}.

(** The codes of the type branch. *)
Lemma evaluate_rejection_codes (q : Question) (data : dict pyval)
    (e : string) (st : Z) :
  evaluate q data = Rejected e st ->
  (st = 400
   /\ In e ["bad_request"; "invalid_option"; "no_selection"; "empty_value";
            "bad_number"])
  \/ (st = 500 /\ e = "unsupported_type"
      /\ ~ In (qtype q) ["single"; "multi"; "text"; "number"]).
Proof.
  unfold evaluate.
  destruct (String.eqb_spec (qtype q) "single") as [Ht|N1].
  { destruct (as_int _); [destruct (find _ _)|]; intros [= <- <-];
      left; simpl; auto. }
  destruct (String.eqb_spec (qtype q) "multi") as [Ht|N2].
  { destruct (get data "option_idxs"); try (intros [= <- <-]; left; simpl; auto).
    destruct (all_ints l); [destruct (is_nil _)|]; intros [= <- <-];
      left; simpl; auto 6. }
  destruct (String.eqb_spec (qtype q) "text") as [Ht|N3].
  { destruct (negb _); intros [= <- <-]. left; simpl; auto 6. }
  destruct (String.eqb_spec (qtype q) "number") as [Ht|N4].
  { destruct (get data "value"); try discriminate;
      (destruct (float_of_str _); [discriminate|]);
      intros [= <- <-]; left; simpl; auto 8. }
  intros [= <- <-]. right. repeat split; auto.
  simpl. intros [H|[H|[H|[H|[]]]]]; congruence.
Qed.

(** [api_answer] taken apart. *)
Lemma api_answer_cases (s : Survey) (body : pyval) :
  api_answer s body = Unhandled
  \/ api_answer s body = Error "bad_request" None 400
  \/ api_answer s body = Error "question_not_found" None 404
  \/ exists data q,
       payload body = PDict data
       /\ _safe_str (get data "qid") <> EmptyString
       /\ dict_get (_safe_str (get data "qid")) (questions s) = Some q
       /\ ((exists e st, evaluate q data = Rejected e st
                         /\ api_answer s body = Error e None st)
           \/ (exists v nx, evaluate q data = Accepted v nx
                 /\ api_answer s body
                    = conclude s (_safe_str (get data "qid")) q
                        (py_or (get data "answers") (PList [])) v nx)).
Proof.
  unfold api_answer. destruct (payload body) as [| | | | | |data] eqn:Ep; auto.
  cbv zeta. destruct (Str.nonempty (_safe_str (get data "qid"))) eqn:En;
    cbn [negb]; auto.
  destruct (dict_get _ (questions s)) as [q|] eqn:Eq; auto.
  right. right. right. exists data, q.
  split; [reflexivity|]. split; [now apply nonempty_true|].
  split; [exact Eq|].
  destruct (evaluate q data) as [e st|v nx]; [left | right]; eauto.
Qed.

(** [conclude] taken apart. *)
Lemma conclude_cases (s : Survey) (id : string) (q : Question)
    (answers : pyval) (v : string) (nx : option string) :
  conclude s id q answers v nx = Unhandled
  \/ exists prior,
       py_list answers = Some prior
       /\ ((target nx = None
            /\ exists final,
                 render_final (final_text s)
                   (prior ++ [answer_record id q v]) = Some final
                 /\ conclude s id q answers v nx
                    = Finished (final_title s) final
                        (prior ++ [answer_record id q v]))
           \/ (exists n, target nx = Some n
                 /\ dict_mem n (questions s) = false
                 /\ conclude s id q answers v nx
                    = Error "next_question_missing" (Some n) 500)
           \/ (exists n, target nx = Some n
                 /\ dict_mem n (questions s) = true
                 /\ conclude s id q answers v nx
                    = Advanced n (prior ++ [answer_record id q v]))).
Proof.
  unfold conclude. destruct (py_list answers) as [prior|]; [|now left].
  destruct (target nx) as [n|].
  - right. exists prior. split; [reflexivity|]. right.
    destruct (dict_mem n (questions s)) eqn:E; cbn [negb]; eauto 8.
  - destruct (render_final _ _) as [final|] eqn:E; [|now left].
    right. exists prior. split; [reflexivity|]. left. eauto.
Qed.

(** X17.  The error responses of the answer endpoint, all of them: a
    client error has status 400 and one of the codes bad_request,
    invalid_option, no_selection, empty_value, bad_number; an unknown
    question has status 404 and the code question_not_found; status 500
    goes with unsupported_type, or with next_question_missing and then
    the body names the missing id, which is not empty and is no key of the
    survey's questions.  Only the last body has a [next_qid]. *)
Theorem error_responses (s : Survey) (body : pyval) (e : string)
    (n : option string) (st : Z) :
  api_answer s body = Error e n st ->
  (st = 400 /\ n = None
   /\ In e ["bad_request"; "invalid_option"; "no_selection"; "empty_value";
            "bad_number"])
  \/ (st = 404 /\ n = None /\ e = "question_not_found")
  \/ (st = 500 /\ n = None /\ e = "unsupported_type")
  \/ (st = 500 /\ e = "next_question_missing"
      /\ exists missing, n = Some missing /\ missing <> EmptyString
                         /\ dict_mem missing (questions s) = false).
Proof.
  destruct (api_answer_cases s body)
    as [H|[H|[H|(data & q & _ & _ & _ & [(e' & st' & He & H)|(v & nx & He & H)])]]];
    rewrite H; try discriminate.
  - intros [= <- <- <-]. left. simpl. auto.
  - intros [= <- <- <-]. right. left. auto.
  - intros [= <- <- <-].
    destruct (evaluate_rejection_codes _ _ He) as [[-> Hin]|(-> & -> & _)].
    + left. auto.
    + right. right. left. auto.
  - destruct (conclude_cases s (_safe_str (get data "qid")) q
                (py_or (get data "answers") (PList [])) v nx)
      as [Hc|(prior & _ & [(_ & final & _ & Hc)|[(m & Ht & Hm & Hc)|(m & _ & _ & Hc)]])];
      rewrite Hc; try discriminate.
    intros [= <- <- <-]. right. right. right.
    repeat split; auto. exists m. repeat split; auto.
    now destruct (target_some _ Ht).
Qed.

(** X18.  For a survey the registry serves the error unsupported_type
    cannot occur, whatever the request: the parser admits no other type
    than the four the engine knows. *)
Theorem unsupported_type_is_unreachable (data_dir : string)
    (listing : option (list (string * option DataFrame)))
    (SURVEYS : dict Survey) (k : string) (s : Survey) (body : pyval)
    (e : string) (n : option string) (st : Z) :
  load_all_surveys data_dir listing = Ok SURVEYS ->
  get_survey_or_404 SURVEYS k = Some s ->
  api_answer s body = Error e n st ->
  e <> "unsupported_type".
Proof.
  intros Hl Hs.
  destruct (api_answer_cases s body)
    as [H|[H|[H|(data & q & _ & _ & Hq & [(e' & st' & He & H)|(v & nx & He & H)])]]];
    rewrite H; try discriminate.
  - intros [= <- <- <-]. discriminate.
  - intros [= <- <- <-]. discriminate.
  - intros [= <- <- <-].
    destruct (served_from_rows _ _ _ _ Hl Hs Hq) as (r & Hr & _).
    destruct (question_of_row_built _ Hr) as (_ & _ & _ & Ht).
    apply mem_In in Ht.
    destruct (evaluate_rejection_codes _ _ He) as [[_ Hin]|(_ & _ & Hn)];
      [|contradiction].
    simpl in Hin. intros ->.
    destruct Hin as [H1|[H1|[H1|[H1|[H1|[]]]]]]; discriminate.
  - destruct (conclude_cases s (_safe_str (get data "qid")) q
                (py_or (get data "answers") (PList [])) v nx)
      as [Hc|(prior & _ & [(_ & final & _ & Hc)|[(m & Ht & Hm & Hc)|(m & _ & _ & Hc)]])];
      rewrite Hc; try discriminate.
    intros [= <- <- <-]. discriminate.
Qed.

(** X19.  The engine never sends the caller to a question that does not
    exist: the id of an [Advanced] response is not empty and is a key of
    the survey's questions, so the question endpoint, asked for it,
    answers with the body of that question. *)
Theorem advance_leads_to_a_question (s : Survey) (body : pyval)
    (n : string) (answers : list pyval) :
  api_answer s body = Advanced n answers ->
  n <> EmptyString
  /\ exists q,
       dict_get n (questions s) = Some q
       /\ api_get_question s n
          = QuestionBody (key s) (qid q) (qtype q) (q_title q) (q_text q)
              (long_text q) (hints q)
              (map (fun opt => (idx opt, text opt)) (options q)).
Proof.
  destruct (api_answer_cases s body)
    as [H|[H|[H|(data & q & _ & _ & _ & [(e' & st' & He & H)|(v & nx & He & H)])]]];
    rewrite H; try discriminate.
  destruct (conclude_cases s (_safe_str (get data "qid")) q
              (py_or (get data "answers") (PList [])) v nx)
    as [Hc|(prior & _ & [(_ & final & _ & Hc)|[(m & Ht & Hm & Hc)|(m & Ht & Hm & Hc)]])];
    rewrite Hc; try discriminate.
  intros [= <- <-]. split; [now destruct (target_some _ Ht)|].
  unfold dict_mem in Hm. unfold api_get_question.
  destruct (dict_get m (questions s)) as [q'|]; [|discriminate].
  exists q'. split; reflexivity.
Qed.

(** X20.  A response that carries answers carries the prior answers, as
    [list] reads them, in their order, followed by one record: the record
    of the question found under the stripped [qid], with the value the
    type branch rendered.  The response is [Finished], with the survey's
    finish title and the rendered finish text, exactly when the next id of
    the evaluation is absent or empty, and [Advanced] to that id
    otherwise. *)
Theorem success_appends_one_record (s : Survey) (body : pyval)
    (answers : list pyval) :
  response_answers (api_answer s body) = Some answers ->
  exists data q v nx prior,
    payload body = PDict data
    /\ dict_get (_safe_str (get data "qid")) (questions s) = Some q
    /\ evaluate q data = Accepted v nx
    /\ py_list (py_or (get data "answers") (PList [])) = Some prior
    /\ answers
       = (prior ++ [answer_record (_safe_str (get data "qid")) q v])%list
    /\ match target nx with
       | None =>
           exists final,
             render_final (final_text s) answers = Some final
             /\ api_answer s body = Finished (final_title s) final answers
       | Some n => api_answer s body = Advanced n answers
       end.
Proof.
  destruct (api_answer_cases s body)
    as [H|[H|[H|(data & q & Hp & _ & Hq & [(e' & st' & He & H)|(v & nx & He & H)])]]];
    rewrite H; try discriminate.
  destruct (conclude_cases s (_safe_str (get data "qid")) q
              (py_or (get data "answers") (PList [])) v nx)
    as [Hc|(prior & Hl & [(Ht & final & Hr & Hc)|[(m & Ht & Hm & Hc)|(m & Ht & Hm & Hc)]])];
    rewrite Hc; try discriminate; intros [= <-];
    exists data, q, v, nx, prior; rewrite Ht; eauto 10.
Qed.

(** X21.  A [multi] answer is read as a set: two submitted lists of ints
    with the same members, in whatever order and however often repeated,
    are evaluated alike. *)
Theorem multi_selection_is_a_set (q : Question) (data1 data2 : dict pyval)
    (l1 l2 : list pyval) (idxs1 idxs2 : list Z) :
  qtype q = "multi" ->
  get data1 "option_idxs" = PList l1 -> all_ints l1 = Some idxs1 ->
  get data2 "option_idxs" = PList l2 -> all_ints l2 = Some idxs2 ->
  (forall i, In i idxs1 <-> In i idxs2) ->
  evaluate q data1 = evaluate q data2.
Proof.
  intros Ht H1 A1 H2 A2 Hm.
  rewrite !evaluate_multi by exact Ht. rewrite H1, A1, H2, A2.
  assert (Hc : chosen_texts (options q) (sorted_set idxs1)
               = chosen_texts (options q) (sorted_set idxs2)).
  { unfold chosen_texts. f_equal. apply filter_ext. intros o.
    apply eq_true_iff_eq. rewrite !mem_Z_In, !sorted_set_In. apply Hm. }
  now rewrite Hc.
Qed.

(** X22.  The value of a [text] answer: when the answer is accepted, the
    value recorded is [_safe_str] of the payload, for a string the string
    stripped; it is not empty and has no whitespace at its ends, and the
    engine continues with the question's [next_id]. *)
Theorem text_answer_is_trimmed (q : Question) (data : dict pyval)
    (v : string) (n : option string) :
  qtype q = "text" ->
  evaluate q data = Accepted v n ->
  v = _safe_str (get data "value")
  /\ (forall t, get data "value" = PStr t -> v = Str.strip t)
  /\ v <> EmptyString
  /\ Str.strip v = v
  /\ n = next_id q.
Proof.
  intros Ht. rewrite evaluate_text by exact Ht.
  destruct (Str.nonempty (_safe_str (get data "value"))) eqn:E; cbn [negb];
    [|discriminate].
  intros [= <- <-]. split; [reflexivity|]. split.
  - now intros t ->.
  - split; [now apply nonempty_true|]. split; [|reflexivity].
    unfold _safe_str. destruct (get data "value"); try reflexivity;
      destruct (pd_isna _); try reflexivity; apply strip_idem.
Qed.

(** X23.  The two endpoints agree on which questions exist: for an id
    that is not empty and has no whitespace at its ends, the question
    endpoint answers question_not_found exactly when the answer endpoint
    does, whatever else the request holds. *)
Theorem endpoints_agree_on_questions (s : Survey) (data : dict pyval)
    (id : string) :
  id <> EmptyString -> Str.strip id = id ->
  get data "qid" = PStr id ->
  (api_get_question s id = QuestionNotFound
   <-> api_answer s (PDict data) = Error "question_not_found" None 404).
Proof.
  intros Hne Hst Hq.
  assert (Hs : _safe_str (get data "qid") = id).
  { rewrite Hq. cbn [_safe_str pd_isna py_str]. exact Hst. }
  unfold api_get_question.
  destruct (dict_get id (questions s)) as [q|] eqn:Eq.
  - split; [discriminate|].
    rewrite <- Hs in Eq, Hne.
    rewrite (api_answer_found s data Hne Eq).
    destruct (evaluate q data) as [e st|v nx] eqn:He.
    + intros [= -> ->].
      destruct (evaluate_rejection_codes _ _ He) as [[H _]|[H _]];
        discriminate.
    + destruct (conclude_cases s (_safe_str (get data "qid")) q
                  (py_or (get data "answers") (PList [])) v nx)
        as [Hc|(prior & _ & [(_ & final & _ & Hc)|[(m & _ & _ & Hc)|(m & _ & _ & Hc)]])];
        rewrite Hc; discriminate.
  - split; [intros _|reflexivity].
    unfold api_answer. rewrite payload_dict. cbv zeta. rewrite Hs.
    apply nonempty_true in Hne. now rewrite Hne, Eq.
Qed.

End EngineProperties.

(** *** The accumulator and the registry under collisions *)

Lemma dict_set_length (V : Type) (k : string) (v : V) (d : dict V) :
  dict_len (dict_set k v d)
  = if dict_mem k d then dict_len d else dict_len d + 1.
Proof.
  unfold dict_len, dict_mem. induction d as [|[k' v'] d IH]; simpl length.
  - reflexivity.
  - cbn [dict_set dict_get]. destruct (String.eqb k' k); [reflexivity|].
    cbn [length]. destruct (dict_get k d); lia.
Qed.

Section AccumulatorProperties.

Context {PF : PyRuntime} {PC : PyContainers}.

(** X24.  Registering a survey adds at most one entry and removes no key.
    Under a collision the new key may be taken as well: the survey stored
    there is then replaced by the new one and the registry does not
    grow, so that an earlier file is no longer served. *)
Theorem collision_can_replace_a_survey (surveys : dict Survey) (s : Survey) :
  (forall k, dict_mem k surveys = true ->
             dict_mem k (register surveys s) = true)
  /\ dict_len surveys <= dict_len (register surveys s) <= dict_len surveys + 1
  /\ (dict_mem (key s) surveys = true ->
      dict_mem (suffixed_key surveys (key s)) surveys = true ->
      dict_len (register surveys s) = dict_len surveys
      /\ dict_get (suffixed_key surveys (key s)) (register surveys s)
         = Some (with_key s (suffixed_key surveys (key s)))).
Proof.
  assert (Hreg : exists k' s', register surveys s = dict_set k' s' surveys
                   /\ (dict_mem (key s) surveys = true ->
                       k' = suffixed_key surveys (key s)
                       /\ s' = with_key s k')).
  { unfold register. destruct (dict_mem (key s) surveys).
    - eexists _, _. split; [reflexivity|]. intros _. split; reflexivity.
    - eexists _, _. split; [reflexivity|]. discriminate. }
  destruct Hreg as (k' & s' & Hreg & Hcol). rewrite Hreg. split; [|split].
  - intros k Hk. unfold dict_mem in *.
    destruct (String.eqb_spec k' k) as [->|Hne].
    + now rewrite dict_get_set_same.
    + now rewrite dict_get_set_other.
  - rewrite dict_set_length. destruct (dict_mem k' surveys); lia.
  - intros H1 H2. destruct (Hcol H1) as [-> ->].
    rewrite dict_set_length, H2. split; [reflexivity|].
    apply dict_get_set_same.
Qed.

Lemma py_list_falsy (a : pyval) :
  truthy a = false -> py_list (py_or a (PList [])) = Some [].
Proof. unfold py_or. now intros ->. Qed.

(** X25.  A request needs no prior answers: when the [answers] member is
    absent, null or otherwise falsy, a successful response carries the
    one record of this answer and nothing else. *)
Theorem first_answer_starts_the_list (s : Survey) (data : dict pyval)
    (answers : list pyval) :
  truthy (get data "answers") = false ->
  response_answers (api_answer s (PDict data)) = Some answers ->
  exists q v,
    dict_get (_safe_str (get data "qid")) (questions s) = Some q
    /\ answers = [answer_record (_safe_str (get data "qid")) q v].
Proof.
  intros Hf. unfold api_answer. rewrite payload_dict. cbv zeta.
  destruct (negb _); [discriminate|].
  destruct (dict_get _ (questions s)) as [q|]; [|discriminate].
  destruct (evaluate q data) as [e st|v nx]; [discriminate|].
  unfold conclude. rewrite (py_list_falsy _ Hf).
  destruct (target nx).
  - destruct (negb _); [discriminate|]. intros [= <-]. eauto.
  - destruct (render_final _ _); [|discriminate]. intros [= <-]. eauto.
Qed.

(** X26.  The prior answers are not validated.  When the [answers]
    member is a number other than zero or [true], [list] raises: an
    answer the type branch accepts then ends in an unhandled exception,
    whatever the question and the next id. *)
Theorem scalar_answers_are_unhandled (s : Survey) (data : dict pyval)
    (q : Question) (v : string) (nx : option string) :
  _safe_str (get data "qid") <> EmptyString ->
  dict_get (_safe_str (get data "qid")) (questions s) = Some q ->
  evaluate q data = Accepted v nx ->
  truthy (get data "answers") = true ->
  (exists z, get data "answers" = PInt z)
  \/ (exists b, get data "answers" = PBool b)
  \/ (exists f, get data "answers" = PFloat f) ->
  api_answer s (PDict data) = Unhandled.
Proof.
  intros Hne Hq He Ht Hs.
  rewrite (api_answer_found s data Hne Hq), He. unfold conclude, py_or.
  rewrite Ht. destruct Hs as [[z ->]|[[b ->]|[f ->]]]; reflexivity.
Qed.

Lemma answer_lines_spec (l : list pyval) (lines : list string) :
  answer_lines l = Some lines ->
  Forall is_dict l /\ length lines = length l.
Proof.
  revert lines. induction l as [|a l IH]; intros lines; simpl.
  - intros [= <-]. split; [constructor | reflexivity].
  - destruct (answer_line a) as [x|] eqn:Ea; [|discriminate].
    destruct (answer_lines l) as [ls|]; [|discriminate].
    intros [= <-]. destruct (IH ls eq_refl) as [H1 H2]. split.
    + constructor; [|exact H1]. unfold answer_line in Ea.
      destruct a; try discriminate. now eexists.
    + simpl. now rewrite H2.
Qed.

(** X27.  A [Finished] response was rendered from dicts only: every
    answer it carries, the prior ones included, is a dict, and its text
    is the survey's finish text with every placeholder replaced by the
    lines of these answers joined with newlines, one line for each
    answer.  The title is the survey's finish title. *)
Theorem finished_response (s : Survey) (body : pyval) (ftitle ftext : string)
    (answers : list pyval) :
  api_answer s body = Finished ftitle ftext answers ->
  ftitle = final_title s
  /\ Forall is_dict answers
  /\ exists lines,
       answer_lines answers = Some lines
       /\ length lines = length answers
       /\ ftext = Str.replace placeholder (Str.join newline lines)
                    (final_text s).
Proof.
  unfold api_answer. destruct (payload body); try discriminate. cbv zeta.
  destruct (negb _); [discriminate|].
  destruct (dict_get _ (questions s)) as [q|]; [|discriminate].
  destruct (evaluate q d) as [e st|v nx]; [discriminate|].
  unfold conclude. destruct (py_list _) as [prior|]; [|discriminate].
  destruct (target nx); [destruct (negb _); discriminate|].
  unfold render_final, _answers_to_text.
  destruct (answer_lines _) as [lines|] eqn:El; [|discriminate].
  intros [= <- <- <-]. destruct (answer_lines_spec _ El) as [H1 H2].
  split; [reflexivity|]. split; [exact H1|]. exists lines. auto.
Qed.

End AccumulatorProperties.

(* ------------------------------------------------------------------ *)
(** ** The properties on concrete surveys *)

Import Example.

(** C1, as stated, fails: in a survey the parser returns, option 1 of the
    [single] question Q1 exists and has the next id Q9, which is not
    empty; the answer is not advanced to Q9 but answered with the fault
    [next_question_missing].  Nor does an empty next id always finish:
    option 2 of Q1 in the survey of the scenarios has none, and sent with
    the prior answers [[1]] it ends in the exception [_answers_to_text]
    raises on the 1. *)
Lemma single_dangling_next_is_not_advanced :
  load_survey_from_excel "data/dangling.xlsx" (Some dangling)
  = Ok dangling_survey
  /\ dict_get "Q1" (questions dangling_survey) = Some untitled_q
  /\ qtype untitled_q = "single"
  /\ find (fun o => idx o =? 1) (options untitled_q)
     = Some (mkOption 1 "Go" (Some "Q9"))
  /\ api_answer dangling_survey (PDict (pick "Q1" 1))
     = Error "next_question_missing" (Some "Q9") 500
  /\ (forall answers,
       api_answer dangling_survey (PDict (pick "Q1" 1))
       <> Advanced "Q9" answers)
  /\ find (fun o => idx o =? 2) (options continue_q)
     = Some (mkOption 2 "No" None)
  /\ api_answer yes_no_survey (PDict pick_after_number) = Unhandled.
Proof.
  assert (H : api_answer dangling_survey (PDict (pick "Q1" 1))
              = Error "next_question_missing" (Some "Q9") 500)
    by reflexivity.
  split; [vm_compute; reflexivity|].
  repeat split; try reflexivity; try exact H.
  intros answers. rewrite H. discriminate.
Qed.

(** The second scenario of the specification: answering "Yes" to Q1 leads
    to Q2. *)
Lemma single_valid_option_witness :
  api_answer yes_no_survey (PDict (pick "Q1" 1))
  = Advanced "Q2" [answer_record "Q1" continue_q "Yes"].
Proof.
  apply (proj1 (proj2
    (@single_valid_option _ _ yes_no_survey (pick "Q1" 1) continue_q 1
       (mkOption 1 "Yes" (Some "Q2")) []
       ltac:(discriminate) eq_refl eq_refl eq_refl eq_refl eq_refl))).
Defined.

(** Indices out of order, repeated (1 also as [True]) and unknown (9):
    the value names option 1 and option 3, once each. *)
Lemma multi_selection_rendering_witness :
  evaluate colours_q (tick "Q2" [PInt 3; PInt 9; PInt 1; PBool true; PInt 3])
  = Accepted "Red, Blue" None.
Proof.
  apply (proj1
    (@multi_selection_rendering _ _ "data" one_file one_survey "yes_no"
       yes_no_survey
       (tick "Q2" [PInt 3; PInt 9; PInt 1; PBool true; PInt 3])
       colours_q
       [PInt 3; PInt 9; PInt 1; PBool true; PInt 3] [3; 9; 1; 1; 3]
       [mkOption 1 "Red" None; mkOption 3 "Blue" None]
       ltac:(vm_compute; reflexivity)
       eq_refl eq_refl eq_refl eq_refl eq_refl
       (ex_intro _ (mkOption 3 "Blue" None)
          (conj (or_intror (or_intror (or_introl eq_refl)))
                (or_introl eq_refl)))
       (@chosen_is_resolved (options colours_q) [3; 9; 1; 1; 3]
          ltac:(repeat constructor; simpl; lia)))).
Defined.

(** The sheet [dangling] declares the start Q7, which no row defines. *)
Lemma start_qid_is_a_question_witness :
  dict_mem (start_qid dangling_survey) (questions dangling_survey) = true.
Proof.
  apply (proj1
    (@start_qid_is_a_question _ _ "data/dangling.xlsx" (Some dangling)
       dangling_survey ltac:(vm_compute; reflexivity))).
Defined.

(** C4, as stated, fails: the question Q1 has no title, and the line of
    its record starts with the question id instead of the (empty) title
    of the record. *)
Lemma untitled_record_is_labelled_with_the_id :
  load_survey_from_excel "data/dangling.xlsx" (Some dangling)
  = Ok dangling_survey
  /\ dict_get "Q1" (questions dangling_survey) = Some untitled_q
  /\ q_title untitled_q = EmptyString
  /\ final_text dangling_survey = placeholder
  /\ api_answer dangling_survey (PDict (pick "Q1" 2))
     = Finished "Готово" "Q1: Stop" [answer_record "Q1" untitled_q "Stop"]
  /\ render_final placeholder [answer_record "Q1" untitled_q "Stop"]
     <> Some (q_title untitled_q ++ ": " ++ "Stop").
Proof.
  split; [vm_compute; reflexivity|].
  repeat split; try reflexivity.
  change (Some "Q1: Stop" <> Some ": Stop"). discriminate.
Qed.

(** Two records in a template with text on both sides of the
    placeholder. *)
Lemma finish_text_rendering_witness :
  render_final "Done: {answers}."
    (map record_of [("Q1", continue_q, "Yes"); ("Q2", colours_q, "Red, Blue")])
  = Some ("Done: " ++ "Continue?: Yes" ++ newline ++ "Colours: Red, Blue"
          ++ ".").
Proof.
  destruct (@finish_text_rendering _ _ "Done: {answers}."
              [("Q1", continue_q, "Yes"); ("Q2", colours_q, "Red, Blue")])
    as (_ & _ & _ & _ & H).
  destruct (H "Done: " "." eq_refl) as [_ H'].
  rewrite H'. reflexivity.
Defined.

(** C5, as stated, fails: when the second file is registered the registry
    holds one survey, and the second survey gets the key of the first
    followed by "_2": no key is the first key followed by that size. *)
Lemma suffix_is_not_the_registry_size :
  exists first reg,
    load_all_surveys "data" (Some [("a.xlsx", Some yes_no)]) = Ok first
    /\ dict_keys first = ["a"]
    /\ dict_len first = 1
    /\ load_all_surveys "data" two_files = Ok reg
    /\ dict_keys reg = ["a"; "a_2"]
    /\ dict_mem ("a" ++ "_" ++ Str.of_Z (dict_len first)) reg = false
    /\ dict_mem ("a" ++ Str.of_Z (dict_len first)) reg = false.
Proof.
  eexists. eexists. split; [vm_compute; reflexivity|].
  split; [reflexivity|]. split; [reflexivity|].
  split; [vm_compute; reflexivity|]. repeat split; reflexivity.
Qed.

(** The same survey registered a second time. *)
Lemma colliding_key_is_suffixed_witness :
  dict_keys (register one_survey yes_no_survey) = ["yes_no"; "yes_no_2"].
Proof.
  rewrite (proj1 (@colliding_key_is_suffixed _ _ one_survey yes_no_survey
                    eq_refl)).
  reflexivity.
Defined.

(** A numeric string with blanks around it, and a word. *)
Lemma number_payloads_witness :
  evaluate age_q (say "N" (PStr " 12 ")) = Accepted "12.0" (Some "Q9")
  /\ api_answer dangling_survey (PDict (say "N" (PStr "twelve")))
     = Error "bad_number" None 400.
Proof.
  destruct (@number_payloads _ _ dangling_survey (say "N" (PStr " 12 "))
              age_q ltac:(discriminate) eq_refl eq_refl) as (_ & _ & H & _).
  destruct (@number_payloads _ _ dangling_survey (say "N" (PStr "twelve"))
              age_q ltac:(discriminate) eq_refl eq_refl)
    as (_ & _ & _ & H' & _).
  split.
  - exact (H " 12 " (Whole 12) eq_refl eq_refl).
  - exact (proj2 (H' "twelve" eq_refl eq_refl)).
Defined.

(** C7, as stated, fails: the [number] question N continues with Q9,
    which does not exist, and the answer 5 is accepted; sent with the
    number 5 where the prior answers belong, [list] raises before the
    next id is looked up, and the response is not the fault
    [next_question_missing]. *)
Lemma missing_next_is_not_reported_after_scalar_answers :
  dict_get (_safe_str (get say_with_number "qid")) (questions dangling_survey)
  = Some age_q
  /\ evaluate age_q say_with_number = Accepted "5" (Some "Q9")
  /\ dict_mem "Q9" (questions dangling_survey) = false
  /\ api_answer dangling_survey (PDict say_with_number) = Unhandled
  /\ forall n status,
       api_answer dangling_survey (PDict say_with_number)
       <> Error "next_question_missing" n status.
Proof.
  assert (H : api_answer dangling_survey (PDict say_with_number) = Unhandled)
    by reflexivity.
  repeat split; try reflexivity.
  intros n status. rewrite H. discriminate.
Qed.

(** The [number] question N continues with Q9, which does not exist. *)
Lemma missing_next_question_is_a_fault_witness :
  api_answer dangling_survey (PDict (say "N" (PInt 5)))
  = Error "next_question_missing" (Some "Q9") 500.
Proof.
  apply (proj1
    (@missing_next_question_is_a_fault _ _ dangling_survey
       (say "N" (PInt 5)) age_q "5" "Q9" []
       ltac:(discriminate) eq_refl eq_refl ltac:(discriminate)
       eq_refl eq_refl)).
Defined.

(** An empty list of indices for a [multi] question. *)
Lemma rejections_append_nothing_witness :
  rejected yes_no_survey (tick "Q2" []) "no_selection"
  /\ api_answer yes_no_survey (PDict (tick "Q2" []))
     = Error "no_selection" None 400.
Proof.
  assert (H : rejected yes_no_survey (tick "Q2" []) "no_selection").
  { apply bad_answer with (q := colours_q).
    - reflexivity.
    - discriminate.
    - apply multi_nothing_resolves with (l := []) (idxs := []).
      + reflexivity.
      + reflexivity.
      + reflexivity.
      + intros o _ []. }
  split; [exact H|].
  apply (proj1 (@rejections_append_nothing _ _ yes_no_survey
                  (PDict (tick "Q2" [])) (tick "Q2" []) "no_selection"
                  eq_refl H)).
Defined.

(** The sheet [dangling] with and without its row that has no id, and a
    sheet with no other question row. *)
Lemma blank_id_rows_are_skipped_witness :
  load_survey_from_excel "data/dangling.xlsx" (Some dangling)
  = load_survey_from_excel "data/dangling.xlsx"
      (Some (mkDataFrame header
               (firstn 1 (rows dangling) ++ skipn 2 (rows dangling))))
  /\ load_survey_from_excel "data/blank.xlsx" (Some blank_only)
     = Raise (ValueError "blank.xlsx" NoQuestions).
Proof.
  destruct (@blank_id_rows_are_skipped _ _) as (H1 & H2 & _). split.
  - exact (H1 "data/dangling.xlsx" header (firstn 1 (rows dangling))
             (question_row blank blank (PStr "bogus") blank blank blank blank
                blank blank blank)
             (skipn 2 (rows dangling)) eq_refl eq_refl).
  - eapply (H2 "data/blank.xlsx" blank_only).
    + reflexivity.
    + reflexivity.
    + intros r Hr.
      assert (Hall : forallb (fun r => negb (Str.nonempty (row_qid r)))
                       (filter (is_row "question") (iterrows blank_only))
                     = true) by reflexivity.
      rewrite forallb_forall in Hall. specialize (Hall r Hr).
      apply nonempty_false. now destruct (Str.nonempty (row_qid r)).
Defined.

(** The sheet [dangling] has two rows with the id Q1; it is parsed, and
    Q1 holds the question of the second one. *)
Lemma duplicate_ids_last_row_wins_witness :
  load_survey_from_excel "data/dangling.xlsx" (Some dangling)
  = Ok dangling_survey
  /\ dict_get "Q1" (questions dangling_survey) = Some untitled_q.
Proof.
  assert (Hl : load_survey_from_excel "data/dangling.xlsx" (Some dangling)
               = Ok dangling_survey) by (vm_compute; reflexivity).
  split; [exact Hl|].
  destruct (proj2 (@duplicate_ids_last_row_wins _ _) _ _ _ Hl)
    as (df & Hdf & _ & Hlast).
  injection Hdf as <-.
  apply (Hlast (firstn 3 (filter (is_row "question") (iterrows dangling)))
               (combine (map Str.strip header)
                  (question_row (PStr "Q1") blank (PStr "single") blank
                     (PStr "Go") (PStr "Q9") (PStr "Stop") blank blank blank))
               [] untitled_q eq_refl eq_refl).
  intros r' q' [].
Defined.

(** *** Further properties on concrete input *)

Lemma slugify_ignores_directory_witness :
  _slugify (path_join "data" "yes no.xlsx") = _slugify "yes no.xlsx".
Proof.
  apply (proj2 (@slugify_ignores_directory "data" "yes no.xlsx" eq_refl)).
Defined.

Lemma missing_columns_are_reported_witness :
  exists missing,
    load_survey_from_excel "data/no type.xlsx" (Some no_type)
    = Raise (ValueError "no type.xlsx" (MissingColumns missing))
    /\ In "Type" missing.
Proof.
  destruct (@missing_columns_are_reported _ _ "data/no type.xlsx" no_type
              "Type")
    as (missing & H1 & H2 & _).
  - unfold required. simpl. tauto.
  - intros H. vm_compute in H. destruct H as [H|[H|[]]]; discriminate.
  - exists missing. split; [exact H1 | exact H2].
Defined.

Lemma first_invalid_row_aborts_witness :
  load_survey_from_excel "data/bad.xlsx" (Some bad_type)
  = Raise (ValueError "bad.xlsx" (InvalidType "Q2" "choice")).
Proof.
  eapply (@first_invalid_row_aborts _ _ "data/bad.xlsx" bad_type _ _
            [series q1_row] (series q2_row) [series q1_row]).
  - reflexivity.
  - reflexivity.
  - reflexivity.
  - intros r' d' [<-|[]]. discriminate.
  - reflexivity.
Defined.

Lemma later_survey_rows_are_ignored_witness :
  load_survey_from_excel "data/dangling.xlsx"
    (Some (mkDataFrame header
             (rows dangling ++ survey_row (PStr "Other") blank blank :: [])))
  = load_survey_from_excel "data/dangling.xlsx"
      (Some (mkDataFrame header (rows dangling ++ []))).
Proof.
  apply (@later_survey_rows_are_ignored _ _ "data/dangling.xlsx" header
           (rows dangling) (survey_row (PStr "Other") blank blank) []).
  - intros H. apply (f_equal (@length Series)) in H. vm_compute in H.
    discriminate.
  - reflexivity.
Defined.

Lemma other_rows_are_ignored_witness :
  load_survey_from_excel "data/dangling.xlsx"
    (Some (mkDataFrame header (blank_row :: rows dangling)))
  = load_survey_from_excel "data/dangling.xlsx"
      (Some (mkDataFrame header (rows dangling))).
Proof.
  apply (@other_rows_are_ignored _ _ "data/dangling.xlsx" header []
           blank_row (rows dangling) eq_refl eq_refl).
Defined.

Lemma survey_metadata_witness :
  title dangling_survey = or_default EmptyString (_slugify "data/dangling.xlsx")
  /\ final_title dangling_survey <> EmptyString.
Proof.
  destruct (@survey_metadata _ _ "data/dangling.xlsx" (Some dangling)
              dangling_survey ltac:(vm_compute; reflexivity))
    as (df & m & _ & _ & _ & _ & _ & _ & _ & _ & _ & _ & H & _).
  split; [reflexivity | exact H].
Defined.

Lemma discovery_fails_fast_witness :
  load_all_surveys "data"
    (Some ([("a.xlsx", Some yes_no)]
           ++ ("b.xlsx", None) :: [("c.xlsx", Some yes_no)])%list)
  = Raise (ReadError "b.xlsx").
Proof.
  eapply (@discovery_fails_fast _ _ "data" [("a.xlsx", Some yes_no)]
            "b.xlsx" None [("c.xlsx", Some yes_no)]).
  - vm_compute. reflexivity.
  - reflexivity.
  - reflexivity.
Defined.

Lemma registry_keys_witness :
  NoDup (dict_keys one_survey)
  /\ Str.all slug_char "yes_no" = true.
Proof.
  destruct (@registry_keys _ _ "data" one_file one_survey
              ltac:(vm_compute; reflexivity)) as [H1 H2].
  split; [exact H1|].
  apply (H2 "yes_no" yes_no_survey eq_refl).
Defined.

Lemma start_question_is_served_witness :
  exists q,
    dict_get (start_qid yes_no_survey) (questions yes_no_survey) = Some q
    /\ qid q = start_qid yes_no_survey
    /\ api_get_question yes_no_survey (start_qid yes_no_survey)
       = QuestionBody "yes_no" (start_qid yes_no_survey) (qtype q) (q_title q)
           (q_text q) (long_text q) (hints q)
           (map (fun opt => (idx opt, text opt)) (options q)).
Proof.
  apply (@start_question_is_served _ _ "data" one_file one_survey "yes_no"
           yes_no_survey ltac:(vm_compute; reflexivity) eq_refl).
Defined.

Lemma served_questions_are_well_formed_witness :
  In (qtype colours_q) ["single"; "multi"; "text"; "number"]
  /\ next_id colours_q <> Some EmptyString.
Proof.
  destruct (@served_questions_are_well_formed _ _ "data" one_file one_survey
              "yes_no" yes_no_survey "Q2" colours_q
              ltac:(vm_compute; reflexivity) eq_refl eq_refl)
    as (_ & _ & _ & H1 & _ & H2).
  split; [exact H1 | exact H2].
Defined.

Lemma served_options_are_well_formed_witness :
  NoDup (map idx (options colours_q))
  /\ (length (options colours_q) <= 10)%nat.
Proof.
  destruct (@served_options_are_well_formed _ _ "data" one_file one_survey
              "yes_no" yes_no_survey "Q2" colours_q
              ltac:(vm_compute; reflexivity) eq_refl eq_refl)
    as (_ & H1 & H2 & _).
  split; [exact H1 | exact H2].
Defined.

Lemma error_responses_witness :
  (400 = 400 /\ @None string = None
   /\ In "no_selection"
        ["bad_request"; "invalid_option"; "no_selection"; "empty_value";
         "bad_number"])
  \/ (400 = 404 /\ @None string = None /\ "no_selection" = "question_not_found")
  \/ (400 = 500 /\ @None string = None /\ "no_selection" = "unsupported_type")
  \/ (400 = 500 /\ "no_selection" = "next_question_missing"
      /\ exists missing, None = Some missing /\ missing <> EmptyString
                         /\ dict_mem missing (questions yes_no_survey) = false).
Proof.
  apply (@error_responses _ _ yes_no_survey (PDict (tick "Q2" []))
           "no_selection" None 400 eq_refl).
Defined.

Lemma unsupported_type_is_unreachable_witness :
  "no_selection" <> "unsupported_type".
Proof.
  apply (@unsupported_type_is_unreachable _ _ "data" one_file one_survey
           "yes_no" yes_no_survey (PDict (tick "Q2" [])) "no_selection" None
           400 ltac:(vm_compute; reflexivity) eq_refl eq_refl).
Defined.

Lemma advance_leads_to_a_question_witness :
  api_get_question yes_no_survey "Q2" <> QuestionNotFound.
Proof.
  destruct (@advance_leads_to_a_question _ _ yes_no_survey
              (PDict (pick "Q1" 1)) "Q2"
              [answer_record "Q1" continue_q "Yes"] eq_refl)
    as (_ & q & _ & H).
  rewrite H. discriminate.
Defined.

Lemma success_appends_one_record_witness :
  exists data q v nx prior,
    payload (PDict (pick "Q1" 1)) = PDict data
    /\ dict_get (_safe_str (get data "qid")) (questions yes_no_survey) = Some q
    /\ evaluate q data = Accepted v nx
    /\ py_list (py_or (get data "answers") (PList [])) = Some prior
    /\ [answer_record "Q1" continue_q "Yes"]
       = (prior ++ [answer_record (_safe_str (get data "qid")) q v])%list
    /\ match target nx with
       | None =>
           exists final,
             render_final (final_text yes_no_survey)
               [answer_record "Q1" continue_q "Yes"] = Some final
             /\ api_answer yes_no_survey (PDict (pick "Q1" 1))
                = Finished (final_title yes_no_survey) final
                    [answer_record "Q1" continue_q "Yes"]
       | Some n =>
           api_answer yes_no_survey (PDict (pick "Q1" 1))
           = Advanced n [answer_record "Q1" continue_q "Yes"]
       end.
Proof.
  apply (@success_appends_one_record _ _ yes_no_survey (PDict (pick "Q1" 1))
           [answer_record "Q1" continue_q "Yes"] eq_refl).
Defined.

Lemma multi_selection_is_a_set_witness :
  evaluate colours_q (tick "Q2" [PInt 3; PInt 1])
  = evaluate colours_q (tick "Q2" [PInt 1; PInt 3; PInt 3]).
Proof.
  apply (@multi_selection_is_a_set _ _ colours_q
           (tick "Q2" [PInt 3; PInt 1]) (tick "Q2" [PInt 1; PInt 3; PInt 3])
           [PInt 3; PInt 1] [PInt 1; PInt 3; PInt 3] [3; 1] [1; 3; 3]
           eq_refl eq_refl eq_refl eq_refl eq_refl).
  intros i. simpl. tauto.
Defined.

Lemma text_answer_is_trimmed_witness :
  "Ann" = _safe_str (get (say "T" (PStr "  Ann ")) "value")
  /\ Str.strip "Ann" = "Ann".
Proof.
  destruct (@text_answer_is_trimmed _ _ name_q (say "T" (PStr "  Ann "))
              "Ann" None eq_refl eq_refl) as (H1 & _ & _ & H2 & _).
  split; [exact H1 | exact H2].
Defined.

Lemma endpoints_agree_on_questions_witness :
  api_get_question yes_no_survey "Q7" = QuestionNotFound
  <-> api_answer yes_no_survey (PDict (pick "Q7" 1))
      = Error "question_not_found" None 404.
Proof.
  apply (@endpoints_agree_on_questions _ _ yes_no_survey (pick "Q7" 1) "Q7"
           ltac:(discriminate) eq_refl eq_refl).
Defined.

Lemma first_answer_starts_the_list_witness :
  exists q v,
    dict_get (_safe_str (get (pick "Q1" 1) "qid")) (questions yes_no_survey)
    = Some q
    /\ [answer_record "Q1" continue_q "Yes"]
       = [answer_record (_safe_str (get (pick "Q1" 1) "qid")) q v].
Proof.
  apply (@first_answer_starts_the_list _ _ yes_no_survey (pick "Q1" 1)
           [answer_record "Q1" continue_q "Yes"] eq_refl eq_refl).
Defined.

Lemma scalar_answers_are_unhandled_witness :
  api_answer yes_no_survey (PDict pick_with_number) = Unhandled.
Proof.
  apply (@scalar_answers_are_unhandled _ _ yes_no_survey pick_with_number
           continue_q "Yes" (Some "Q2") ltac:(discriminate)
           eq_refl eq_refl eq_refl).
  left. exists 5. reflexivity.
Defined.

Lemma finished_response_witness :
  Forall is_dict [answer_record "Q1" continue_q "No"].
Proof.
  apply (@finished_response _ _ yes_no_survey (PDict (pick "Q1" 2))
           "Готово" "Done: Continue?: No."
           [answer_record "Q1" continue_q "No"] eq_refl).
Defined.

(** Whitespace beyond ASCII: the no-break space and the em space are
    stripped, and a run of them becomes one "_" in a key. *)
Lemma padded_texts :
  Str.strip (nbsp ++ " Ann" ++ emsp ++ nbsp) = "Ann"
  /\ Str.strip (nbsp ++ emsp) = EmptyString
  /\ _slugify ("a" ++ nbsp ++ "b.xlsx") = "a_b"
  /\ _slugify ("a " ++ nbsp ++ emsp ++ "b.xlsx") = "a_b"
  /\ _slugify (nbsp ++ ".xlsx") = "_".
Proof. repeat split; vm_compute; reflexivity. Qed.

(** The padded sheet is read as the same sheet without the padding: the
    column Type is found, the row with the blank id is skipped, the row
    of Q2 is a question row of type [text], the two rows of A share the
    id, and the declared start Q2 is kept. *)
Lemma padded_sheet_is_read :
  load_survey_from_excel ("data/a" ++ nbsp ++ "b.xlsx") (Some padded)
  = Ok padded_survey.
Proof. vm_compute; reflexivity. Qed.

(** Padded requests: a [text] value of whitespace only is refused, a
    padded value is recorded trimmed, and a padded question id finds the
    question in [api_answer] but not in [api_get_question]. *)
Lemma padded_requests :
  api_answer padded_survey (PDict (say "Q2" (PStr (nbsp ++ emsp))))
  = Error "empty_value" None 400
  /\ response_answers
       (api_answer padded_survey (PDict (say "Q2" (PStr (nbsp ++ "Ann" ++ emsp)))))
     = Some [answer_record "Q2"
               (mkQuestion "Q2" "text" "Name" EmptyString EmptyString
                  EmptyString [] None) "Ann"]
  /\ response_answers
       (api_answer padded_survey (PDict (pick ("A" ++ nbsp) 1)))
     = Some [answer_record "A"
               (mkQuestion "A" "single" "Second" EmptyString EmptyString
                  EmptyString [mkOption 1 "Go" None] None) "Go"]
  /\ api_get_question padded_survey ("A" ++ nbsp) = QuestionNotFound.
Proof. repeat split; reflexivity. Qed.

(** Both are among the rejected submissions: a [text] value and a
    question id that hold whitespace only. *)
Lemma padded_rejections :
  rejected padded_survey (say "Q2" (PStr (nbsp ++ emsp))) "empty_value"
  /\ rejected padded_survey (say (emsp ++ nbsp) (PStr "Ann")) "bad_request".
Proof.
  split.
  - apply bad_answer
      with (q := mkQuestion "Q2" "text" "Name" EmptyString EmptyString
                   EmptyString [] None).
    + reflexivity.
    + discriminate.
    + apply text_empty; reflexivity.
  - apply no_qid. reflexivity.
Qed.
